(** * mobx-blocks: Pagination, CacheItem and Collection

    A shallow embedding of [src/lib/Cache/Cache.item.ts] (the [CacheItem]
    and [Pagination] classes) and of the [Collection] class, followed by
    the properties of these classes.

    Conventions of the embedding.
    - A JavaScript plain object with string keys is a [gmap string JsVal];
      the object spread [{...a, ...b}] is [spread a b], in which the entries
      of [b] win.
    - A JavaScript number that counts something (page, pageSize, totalCount)
      is an integer of [Z]; a duration in minutes is a rational of [Q].
    - An optional field ([x?: T]) is an [option T], [None] being [undefined].
    - Calls to injected functions ([fetchFn], [searchFn], [errorHandlerFn],
      [console.warn]) are recorded, in order, in the [trace] of the [World];
      what an injected asynchronous function answers is an input of the
      step that resumes after the [await].  [errorHandlerFn] is a hook: it
      is called for its effect and returns.
    - The reaction that [syncParamsToUrl] installs writes the browser's
      history and nothing of the collection; the option is kept in the
      configuration and the reaction is not modelled. *)

From Stdlib Require Import ZArith QArith.
From stdpp Require Import base gmap strings list fin_maps pretty.

Local Open Scope Z_scope.

(** ** JavaScript values *)

(** The scalar values that payloads, filters and query parameters hold; a
    number is an integer. *)
Inductive JsVal :=
| VUndef
| VNull
| VBool (b : bool)
| VNum (n : Z)
| VStr (s : string).

#[global] Instance JsVal_eq_dec : EqDecision JsVal.
Proof. solve_decision. Defined.

(** JavaScript's truthiness: [undefined], [null], [false], [0] and the empty
    string are falsy. *)
Definition truthy (v : JsVal) : bool :=
  match v with
  | VUndef | VNull => false
  | VBool b => b
  | VNum n => negb (n =? 0)
  | VStr s => negb (String.eqb s "")
  end.

(** Truthiness of an optional number, as in [if (page)] or
    [if (!this.totalCount)]. *)
Definition numTruthy (n : option Z) : bool :=
  match n with
  | Some z => negb (z =? 0)
  | None => false
  end.

(** Truthiness of an optional string, as in [query ? ... : ...]. *)
Definition strTruthy (s : option string) : bool :=
  match s with
  | Some x => negb (String.eqb x "")
  | None => false
  end.

(** [Number.MAX_SAFE_INTEGER], that is [2^53 - 1], and
    [Number.isSafeInteger] on an integer. *)
Definition MAX_SAFE_INTEGER : Z := 9007199254740991.

Definition isSafeInteger (n : Z) : bool := Z.abs n <=? MAX_SAFE_INTEGER.

(** [Number.prototype.toString] prints a safe integer as its decimal
    numeral.  Past the safe integers it prints the shortest digits that
    read back as the same double, and from [1e21] on in exponent form: what
    it prints there is a parameter of the embedding. *)
Class JsNumber := {
  unsafeNumberToString : Z -> string
}.

(** [v.toString()]: a [TypeError] ([None]) on [undefined] and [null]. *)
Definition toString `{JsNumber} (v : JsVal) : option string :=
  match v with
  | VUndef | VNull => None
  | VBool true => Some "true"%string
  | VBool false => Some "false"%string
  | VNum n => Some (if isSafeInteger n then pretty n else unsafeNumberToString n)
  | VStr s => Some s
  end.

(** [{...a, ...b}]: the entries of [b] overwrite those of [a]. *)
Definition spread (a b : gmap string JsVal) : gmap string JsVal := b ∪ a.

(** ** Pagination *)

Module Pagination.

(** [IPaginationProps]: [onChange] records whether a callback was given. *)
Record Props := mkProps {
  props_pageSize : option Z;
  props_onChange : bool
}.

Record t := mk {
  props : option Props;
  page : Z;
  pageSize : Z;
  totalCount : option Z
}.

Definition set_page (n : Z) (p : t) : t :=
  {| props := props p; page := n; pageSize := pageSize p; totalCount := totalCount p |}.

Definition set_pageSize (n : Z) (p : t) : t :=
  {| props := props p; page := page p; pageSize := n; totalCount := totalCount p |}.

(** The constructor: [page = 1], [pageSize = 20], [totalCount] undefined;
    a truthy [props.pageSize] replaces the default page size. *)
Definition new (pr : option Props) : t :=
  let p := {| props := pr; page := 1; pageSize := 20; totalCount := None |} in
  match pr with
  | Some q =>
      match props_pageSize q with
      | Some n => if numTruthy (Some n) then set_pageSize n p else p
      | None => p
      end
  | None => p
  end.

(** [get canGoToNext()]. *)
Definition canGoToNext (p : t) : bool :=
  if negb (numTruthy (totalCount p)) then true
  else
    match totalCount p with
    | Some n => page p * pageSize p <? n
    | None => true
    end.

(** [get params()]. *)
Definition params (p : t) : gmap string JsVal :=
  {[ "page"%string := VNum (page p); "pageSize"%string := VNum (pageSize p) ]}.

(** [init(page?, pageSize?)]. *)
Definition init (pg ps : option Z) (p : t) : t :=
  let p := match pg with
           | Some n => if numTruthy pg then set_page n p else p
           | None => p
           end in
  match ps with
  | Some n => if numTruthy ps then set_pageSize n p else p
  | None => p
  end.

(** [setTotalCount(count)]. *)
Definition setTotalCount (count : Z) (p : t) : t :=
  {| props := props p; page := page p; pageSize := pageSize p; totalCount := Some count |}.

(** [goToPrev()]. *)
Definition goToPrev (p : t) : t :=
  if 1 <? page p then set_page (page p - 1) p else p.

(** Whether [props.onChange] exists. *)
Definition hasOnChange (p : t) : bool :=
  match props p with
  | Some q => props_onChange q
  | None => false
  end.

(** [goToNext()]: the new state and, when [onChange] is called, the
    parameters it is called with. *)
Definition goToNext (p : t) : t * option (gmap string JsVal) :=
  if canGoToNext p then
    let p' := set_page (page p + 1) p in
    (p', if hasOnChange p' then Some (params p') else None)
  else (p, None).

(** A press of one of the two navigation buttons. *)
Inductive Nav := Next | Prev.

(** The object after the presses of [l], first to last. *)
Definition navigate (l : list Nav) (p : t) : t :=
  foldl (fun p n => match n with
                    | Next => (goToNext p).1
                    | Prev => goToPrev p
                    end) p l.

End Pagination.

(** ** CacheItem *)

(** The two helpers that [Cache.item.ts] imports from [../util], whose file
    is not among the sources.  They are parameters of the embedding:
    [timeDeltaInMinutes later earlier] takes two instants (milliseconds since
    the epoch, as [Date.getTime] gives them) and answers minutes; [uuid_nth n]
    is what the [n]-th call of [uuid()] returns. *)
Class Util := {
  timeDeltaInMinutes : Z -> Z -> Q;
  uuid_nth : nat -> string
}.

(** What the constructor reads from its environment: the clock that
    [new Date()] reads and the number of calls [uuid()] has served. *)
Record Runtime := mkRuntime {
  clock : Z;
  uuid_calls : nat
}.

(** [x > y] on numbers. *)
Definition Qgtb (x y : Q) : bool := negb (Qle_bool x y).

(** [merge(object, source)] of the lodash package, which [Cache.item.ts]
    imports: what the merged object is.  A parameter of the embedding. *)
Class Lodash := {
  lodash_merge : gmap string JsVal -> gmap string JsVal -> gmap string JsVal
}.

Module CacheItem.

Record t := mk {
  data : gmap string JsVal;
  ttl : Q;
  id : string;
  cachedAt : Z
}.

Section WithUtil.
Context `{Util} `{JsNumber}.

(** [this.data.id]: [undefined] when the payload has no such field. *)
Definition data_id (d : gmap string JsVal) : JsVal := default VUndef (d !! "id"%string).

(** [this.data.id || uuid()]: [uuid] is called only when the payload's id
    is falsy. *)
Definition id_source (d : gmap string JsVal) (rt : Runtime) : JsVal * Runtime :=
  if truthy (data_id d) then (data_id d, rt)
  else (VStr (uuid_nth (uuid_calls rt)),
        {| clock := clock rt; uuid_calls := S (uuid_calls rt) |}).

(** [new CacheItem(data, ttl)]; [None] would be the [TypeError] of
    [toString] on [undefined] or [null]. *)
Definition new (d : gmap string JsVal) (ttl0 : Q) (rt : Runtime) : option (t * Runtime) :=
  let '(v, rt') := id_source d rt in
  match toString v with
  | Some s => Some ({| data := d; ttl := ttl0; id := s; cachedAt := clock rt' |}, rt')
  | None => None
  end.

(** [isStale(now)]. *)
Definition isStale (c : t) (now : Z) : bool :=
  Qgtb (timeDeltaInMinutes now (cachedAt c)) (ttl c).

(** [update(data, opts)] with [opts.merge] false: the payload is replaced.
    (The merging branch calls lodash's deep [merge] and is not modelled.) *)
Definition update_replace (d : gmap string JsVal) (c : t) : t :=
  {| data := d; ttl := ttl c; id := id c; cachedAt := cachedAt c |}.

End WithUtil.

Section WithLodash.
Context `{Lodash}.

(** [update(data, opts = { merge: true })].  [opts] is [None] when the
    argument is left out, and holds [opts.merge] otherwise, [None] when the
    object has no such field; [if (opts?.merge)] merges with lodash on a
    true [merge] and replaces the payload otherwise. *)
Definition update (d : gmap string JsVal) (opts : option (option bool)) (c : t) : t :=
  let merge := match opts with
               | None => true
               | Some m => default false m
               end in
  {| data := if merge then lodash_merge (data c) d else d;
     ttl := ttl c; id := id c; cachedAt := cachedAt c |}.

End WithLodash.

End CacheItem.

(** Modelled from the spec: [timeDeltaInMinutes] of [../util], which is not
    among the sources.  The spec calls it the elapsed minutes since
    [cachedAt], a function of [now - cachedAt]: the difference of the two
    instants in milliseconds, divided by the 60000 milliseconds of a minute. *)
Definition elapsedMinutes (later earlier : Z) : Q :=
  inject_Z (later - earlier) / inject_Z 60000.

(** Modelled from the spec: [uuid] of [../util], which is not among the
    sources; a generated unique token, here the call's number after a
    prefix that no decimal numeral has. *)
Definition uuid_token (n : nat) : string := ("uuid-" +:+ pretty n)%string.

Definition SpecUtil : Util :=
  {| timeDeltaInMinutes := elapsedMinutes; uuid_nth := uuid_token |}.

(** For the concrete items below, none of which holds a number past the
    safe integers: the printer of such numbers is never consulted there,
    and this instance gives it nothing to print. *)
Definition safeNumbersOnly : JsNumber :=
  {| unsafeNumberToString := fun _ => ""%string |}.

(** ** Collection: its collaborators *)

(** What [Collection] imports and is not among the sources: the classes
    [Sorting] and [CursorPagination], the [parse] function of the
    [query-string] package, and the two types the class is generic in (the
    items, and the values a rejected promise carries).  They are parameters
    of the embedding.  A method of [Sorting] or [CursorPagination] is taken
    by what it does to its own object: the embedding has its call come back
    to the caller, as [fetch] needs of [sorting.setParams] to reach its
    request at all. *)
Class Deps := {
  Item : Type;
  Err : Type;
  Sorting : Type;
  Sorting_new : Sorting;
  Sorting_setParams : option string -> option bool -> Sorting -> Sorting;
  Sorting_params : Sorting -> gmap string JsVal;
  CursorPagination : Type;
  CursorPagination_new : option Z -> CursorPagination;
  CursorPagination_init : option string -> option Z -> CursorPagination -> CursorPagination;
  CursorPagination_setNext : option string -> CursorPagination -> CursorPagination;
  CursorPagination_setPrev : option string -> CursorPagination -> CursorPagination;
  CursorPagination_params : CursorPagination -> gmap string JsVal;
  qs_parse : string -> gmap string JsVal
}.

(** How a promise settles. *)
Inductive Settled `{Deps} (A : Type) :=
| Resolved (a : A)
| Rejected (e : Err).
Arguments Resolved {_ _} a.
Arguments Rejected {_ _} e.

(** [config.pagination]: the class [Pagination], the class
    [CursorPagination], or [undefined]. *)
Inductive Strategy := UsePagination | UseCursorPagination | NoPagination.

Module ICollectionConfig.

(** [fetchFn] is mandatory; [searchFn] and [errorHandlerFn] are optional and
    the record says whether they were given.  What they do is in the trace. *)
Record t := mk {
  pagination : Strategy;
  pageSize : option Z;
  initialFilters : option (gmap string JsVal);
  searchFn : bool;
  errorHandlerFn : bool;
  syncParamsToUrl : bool
}.

End ICollectionConfig.

Module IFetchFnOptions.

(** The options of [fetch]; an absent boolean flag is [false]. *)
Record t := mk {
  clearFilters : bool;
  query : option string;
  sortBy : option string;
  sortAscending : option bool;
  page : option Z;
  pageSize : option Z;
  pageCursor : option string;
  filters : option (gmap string JsVal);
  shouldThrowError : bool
}.

(** [{}], the default of [fetch] and [init]. *)
Definition empty : t := mk false None None None None None None None false.

End IFetchFnOptions.

(** What [fetchFn] resolves with; an optional field is [None] when the key
    is not [in] the response, and a cursor may be [null] (the inner [None]). *)
Record FetchResult `{Deps} := mkFetchResult {
  res_data : list Item;
  res_totalCount : option Z;
  res_nextPageCursor : option (option string);
  res_prevPageCursor : option (option string)
}.

(** [{ data: [], totalCount: 0 }]. *)
Definition emptyResult `{Deps} : FetchResult :=
  {| res_data := []; res_totalCount := Some 0;
     res_nextPageCursor := None; res_prevPageCursor := None |}.

(** [cursor || null]. *)
Definition orNull (c : option string) : option string :=
  if strTruthy c then c else None.

(** The calls that leave the collection, in the order they are made. *)
Inductive Effect `{Deps} :=
| FetchFnCalled (params : gmap string JsVal)
| SearchFnCalled (q : string)
| ErrorHandlerCalled (e : Err)
| Warned.

Definition isFetchFnCall `{Deps} (e : Effect) : bool :=
  match e with
  | FetchFnCalled _ => true
  | _ => false
  end.

(** The number of times [fetchFn] was invoked. *)
Definition fetchFnCalls `{Deps} (tr : list Effect) : nat :=
  length (List.filter isFetchFnCall tr).

(** ** Collection: the object *)

Module Collection.

Section WithDeps.
Context `{Deps}.

Record t := mk {
  config : ICollectionConfig.t;
  initialized : bool;
  data : list Item;
  totalCount : Z;
  fetching : bool;
  fetchErr : option Err;
  searching : bool;
  searchErr : option Err;
  searchQuery : string;
  sorting : Sorting;
  filtersMap : gmap string JsVal;
  pagination : option Pagination.t;
  cursorPagination : option CursorPagination
}.

Definition set_initialized (b : bool) (c : t) : t :=
  mk (config c) b (data c) (totalCount c) (fetching c) (fetchErr c) (searching c)
     (searchErr c) (searchQuery c) (sorting c) (filtersMap c) (pagination c)
     (cursorPagination c).

Definition set_data (l : list Item) (c : t) : t :=
  mk (config c) (initialized c) l (totalCount c) (fetching c) (fetchErr c) (searching c)
     (searchErr c) (searchQuery c) (sorting c) (filtersMap c) (pagination c)
     (cursorPagination c).

Definition set_totalCount (n : Z) (c : t) : t :=
  mk (config c) (initialized c) (data c) n (fetching c) (fetchErr c) (searching c)
     (searchErr c) (searchQuery c) (sorting c) (filtersMap c) (pagination c)
     (cursorPagination c).

Definition set_fetching (b : bool) (c : t) : t :=
  mk (config c) (initialized c) (data c) (totalCount c) b (fetchErr c) (searching c)
     (searchErr c) (searchQuery c) (sorting c) (filtersMap c) (pagination c)
     (cursorPagination c).

Definition set_fetchErr (e : option Err) (c : t) : t :=
  mk (config c) (initialized c) (data c) (totalCount c) (fetching c) e (searching c)
     (searchErr c) (searchQuery c) (sorting c) (filtersMap c) (pagination c)
     (cursorPagination c).

Definition set_searching (b : bool) (c : t) : t :=
  mk (config c) (initialized c) (data c) (totalCount c) (fetching c) (fetchErr c) b
     (searchErr c) (searchQuery c) (sorting c) (filtersMap c) (pagination c)
     (cursorPagination c).

Definition set_searchErr (e : option Err) (c : t) : t :=
  mk (config c) (initialized c) (data c) (totalCount c) (fetching c) (fetchErr c)
     (searching c) e (searchQuery c) (sorting c) (filtersMap c) (pagination c)
     (cursorPagination c).

Definition set_searchQuery (q : string) (c : t) : t :=
  mk (config c) (initialized c) (data c) (totalCount c) (fetching c) (fetchErr c)
     (searching c) (searchErr c) q (sorting c) (filtersMap c) (pagination c)
     (cursorPagination c).

Definition set_sorting (s : Sorting) (c : t) : t :=
  mk (config c) (initialized c) (data c) (totalCount c) (fetching c) (fetchErr c)
     (searching c) (searchErr c) (searchQuery c) s (filtersMap c) (pagination c)
     (cursorPagination c).

Definition set_filtersMap (m : gmap string JsVal) (c : t) : t :=
  mk (config c) (initialized c) (data c) (totalCount c) (fetching c) (fetchErr c)
     (searching c) (searchErr c) (searchQuery c) (sorting c) m (pagination c)
     (cursorPagination c).

Definition set_pagination (p : option Pagination.t) (c : t) : t :=
  mk (config c) (initialized c) (data c) (totalCount c) (fetching c) (fetchErr c)
     (searching c) (searchErr c) (searchQuery c) (sorting c) (filtersMap c) p
     (cursorPagination c).

Definition set_cursorPagination (p : option CursorPagination) (c : t) : t :=
  mk (config c) (initialized c) (data c) (totalCount c) (fetching c) (fetchErr c)
     (searching c) (searchErr c) (searchQuery c) (sorting c) (filtersMap c)
     (pagination c) p.

(** The constructor.  Both pagination objects are given an [onChange]
    callback that calls [fetch]. *)
Definition new (cfg : ICollectionConfig.t) : t :=
  {| config := cfg;
     initialized := false;
     data := [];
     totalCount := 0;
     fetching := false;
     fetchErr := None;
     searching := false;
     searchErr := None;
     searchQuery := "";
     sorting := Sorting_new;
     filtersMap := match ICollectionConfig.initialFilters cfg with
                   | Some f => f
                   | None => ∅
                   end;
     pagination := match ICollectionConfig.pagination cfg with
                   | UsePagination =>
                       Some (Pagination.new
                               (Some (Pagination.mkProps (ICollectionConfig.pageSize cfg) true)))
                   | _ => None
                   end;
     cursorPagination := match ICollectionConfig.pagination cfg with
                         | UseCursorPagination =>
                             Some (CursorPagination_new (ICollectionConfig.pageSize cfg))
                         | _ => None
                         end |}.

(** [get filters()]: [Object.fromEntries(this.filtersMap)]. *)
Definition filters (c : t) : gmap string JsVal := filtersMap c.

(** The [paginationParams] of [get queryParams()]. *)
Definition paginationParams (c : t) : gmap string JsVal :=
  match pagination c with
  | Some p => Pagination.params p
  | None =>
      match cursorPagination c with
      | Some cp => CursorPagination_params cp
      | None => ∅
      end
  end.

(** [get queryParams()]:
    [{...this.filters, ...this.sorting.params, ...paginationParams}]. *)
Definition queryParams (c : t) : gmap string JsVal :=
  spread (spread (filters c) (Sorting_params (sorting c))) (paginationParams c).

(** [setFetchParams(filters)]: [clear()] then [replace(filters)]. *)
Definition setFetchParams (f : gmap string JsVal) (c : t) : t :=
  set_filtersMap f (set_filtersMap ∅ c).

(** [mergeFetchParams(filters)]: [filtersMap.merge(filters)] sets every key
    of [filters] and leaves the other keys. *)
Definition mergeFetchParams (f : gmap string JsVal) (c : t) : t :=
  set_filtersMap (f ∪ filtersMap c) c.

(** [clearFetchParams()]. *)
Definition clearFetchParams (c : t) : t := set_filtersMap ∅ c.

(** [clearFetchParam(key)]. *)
Definition clearFetchParam (k : string) (c : t) : t :=
  set_filtersMap (delete k (filtersMap c)) c.

(** [resetFetchParams()]: [replace(this.config.initialFilters || {})]. *)
Definition resetFetchParams (c : t) : t :=
  set_filtersMap (default ∅ (ICollectionConfig.initialFilters (config c))) c.

(** [resetState()], assignment by assignment. *)
Definition resetState (c : t) : t :=
  let c := set_initialized false c in
  let c := set_data [] c in
  let c := set_totalCount 0 c in
  let c := set_filtersMap ∅ c in
  let c := set_searchQuery "" c in
  let c := set_fetching false c in
  let c := set_fetchErr None c in
  let c := set_searching false c in
  let c := set_searchQuery "" c in
  set_searchErr None c.

(** [this.pagination?.totalCount]: the outer [None] when the collection has
    no [Pagination] object, the inner one when that object's [totalCount]
    is [undefined]. *)
Definition paginationTotalCount (c : t) : option (option Z) :=
  Pagination.totalCount <$> pagination c.

(** *** The asynchronous methods

    [fetch] and [handleSearch] are [async]: each runs to its [await], calls
    the injected function there, and resumes when the promise settles;
    other methods may run in between.  Each is therefore two transitions
    of the [World], the collection together with the calls it has made. *)

Record World := mkWorld {
  coll : t;
  trace : list Effect
}.

Definition emit (e : Effect) (w : World) : World :=
  mkWorld (coll w) (trace w ++ [e]).

Definition update (f : t -> t) (w : World) : World :=
  mkWorld (f (coll w)) (trace w).

(** The pagination step of [fetch]. *)
Definition initPagination (opts : IFetchFnOptions.t) (c : t) : t :=
  match pagination c with
  | Some p =>
      set_pagination
        (Some (Pagination.init (IFetchFnOptions.page opts) (IFetchFnOptions.pageSize opts) p)) c
  | None =>
      match cursorPagination c with
      | Some cp =>
          set_cursorPagination
            (Some (CursorPagination_init (IFetchFnOptions.pageCursor opts)
                     (IFetchFnOptions.pageSize opts) cp)) c
      | None => c
      end
  end.

(** [query ? qs.parse(query) : opts.filters]. *)
Definition resolveFilters (opts : IFetchFnOptions.t) : option (gmap string JsVal) :=
  match IFetchFnOptions.query opts with
  | Some q => if strTruthy (Some q) then Some (qs_parse q) else IFetchFnOptions.filters opts
  | None => IFetchFnOptions.filters opts
  end.

(** The filters step of [fetch]. *)
Definition applyFilters (opts : IFetchFnOptions.t) (c : t) : t :=
  match resolveFilters opts with
  | Some f => if IFetchFnOptions.clearFilters opts then setFetchParams f c else mergeFetchParams f c
  | None => c
  end.

(** [fetch(opts)] from its first line to the call of [fetchFn]. *)
Definition fetch_call (opts : IFetchFnOptions.t) (w : World) : World :=
  let w := if strTruthy (IFetchFnOptions.pageCursor opts)
              && negb (bool_decide (is_Some (cursorPagination (coll w))))
           then emit Warned w else w in
  let w := update (fun c => set_sorting
                              (Sorting_setParams (IFetchFnOptions.sortBy opts)
                                 (IFetchFnOptions.sortAscending opts) (sorting c)) c) w in
  let w := update (initPagination opts) w in
  let w := update (applyFilters opts) w in
  let w := update (set_fetching true) w in
  emit (FetchFnCalled (queryParams (coll w))) w.

(** The cursor step of a successful [fetch]. *)
Definition storeCursors (res : FetchResult) (c : t) : t :=
  match cursorPagination c with
  | Some cp =>
      let cp := match res_nextPageCursor res with
                | Some x => CursorPagination_setNext (orNull x) cp
                | None => cp
                end in
      let cp := match res_prevPageCursor res with
                | Some x => CursorPagination_setPrev (orNull x) cp
                | None => cp
                end in
      set_cursorPagination (Some cp) c
  | None => c
  end.

(** [fetch(opts)] from the settling of [fetchFn]'s promise to its end:
    the [try] body after the [await] or the [catch] block, then the
    [finally] block.  The second component is how [fetch]'s own promise
    settles. *)
Definition fetch_settle (opts : IFetchFnOptions.t) (out : Settled FetchResult) (w : World)
  : World * Settled FetchResult :=
  let '(w, r) :=
    match out with
    | Resolved res =>
        let w := update (set_data (res_data res)) w in
        let w := match res_totalCount res with
                 | Some n => update (set_totalCount n) w
                 | None => w
                 end in
        let w := update (storeCursors res) w in
        (w, Resolved res)
    | Rejected err =>
        let w := update (set_fetchErr (Some err)) w in
        let w := if ICollectionConfig.errorHandlerFn (config (coll w))
                 then emit (ErrorHandlerCalled err) w else w in
        if IFetchFnOptions.shouldThrowError opts then (w, Rejected err)
        else (w, Resolved emptyResult)
    end in
  (update (set_initialized true) (update (set_fetching false) w), r).

(** A [fetch(opts)] that nothing interleaves with, [out] being what
    [fetchFn] answers. *)
Definition fetch (opts : IFetchFnOptions.t) (out : Settled FetchResult) (w : World)
  : World * Settled FetchResult :=
  fetch_settle opts out (fetch_call opts w).

(** [init(opts)] up to the [await]. *)
Definition init_call (opts : IFetchFnOptions.t) (w : World) : World :=
  if negb (initialized (coll w)) then fetch_call opts w else w.

(** An [init(opts)] that nothing interleaves with. *)
Definition init (opts : IFetchFnOptions.t) (out : Settled FetchResult) (w : World)
  : World * Settled unit :=
  if negb (initialized (coll w)) then
    let '(w', r) := fetch opts out w in
    (w', match r with
         | Resolved _ => Resolved tt
         | Rejected e => Rejected e
         end)
  else (w, Resolved tt).

(** [search(query, opts)]: the query is stored; the debounced
    [handleSearch] fires later. *)
Definition search (q : string) (w : World) : World :=
  update (set_searchQuery q) w.

(** [handleSearch(opts)] up to the call of [searchFn]. *)
Definition handleSearch_call (w : World) : World :=
  if negb (ICollectionConfig.searchFn (config (coll w))) then w
  else
    let w := update (set_searching true) w in
    emit (SearchFnCalled (searchQuery (coll w))) w.

(** [handleSearch(opts)] from the settling of [searchFn]'s promise. *)
Definition handleSearch_settle (shouldThrow : bool) (out : Settled (list Item)) (w : World)
  : World * Settled unit :=
  let '(w, r) :=
    match out with
    | Resolved items => (update (set_data items) w, Resolved tt)
    | Rejected err =>
        let w := update (set_searchErr (Some err)) w in
        let w := if ICollectionConfig.errorHandlerFn (config (coll w))
                 then emit (ErrorHandlerCalled err) w else w in
        if shouldThrow then (w, Rejected err) else (w, Resolved tt)
    end in
  (update (set_searching false) w, r).

(** [this.pagination.goToNext()] on the collection's pagination object,
    whose [onChange] is [() => this.fetch()]. *)
Definition goToNext (w : World) : World :=
  match pagination (coll w) with
  | Some p =>
      let '(p', fired) := Pagination.goToNext p in
      let w := update (set_pagination (Some p')) w in
      match fired with
      | Some _ => fetch_call IFetchFnOptions.empty w
      | None => w
      end
  | None => w
  end.

(** [this.pagination.goToPrev()]. *)
Definition goToPrev (w : World) : World :=
  update (fun c => set_pagination (Pagination.goToPrev <$> pagination c) c) w.

(** *** The collection as a transition system *)

Inductive Step :=
| Fetch (opts : IFetchFnOptions.t)
| FetchSettled (opts : IFetchFnOptions.t) (out : Settled FetchResult)
| Init (opts : IFetchFnOptions.t)
| SetFetchParams (f : gmap string JsVal)
| MergeFetchParams (f : gmap string JsVal)
| ClearFetchParams
| ClearFetchParam (k : string)
| ResetFetchParams
| Search (q : string)
| HandleSearch
| HandleSearchSettled (shouldThrow : bool) (out : Settled (list Item))
| ResetState
| GoToNext
| GoToPrev.

Definition step (s : Step) (w : World) : World :=
  match s with
  | Fetch opts => fetch_call opts w
  | FetchSettled opts out => (fetch_settle opts out w).1
  | Init opts => init_call opts w
  | SetFetchParams f => update (setFetchParams f) w
  | MergeFetchParams f => update (mergeFetchParams f) w
  | ClearFetchParams => update clearFetchParams w
  | ClearFetchParam k => update (clearFetchParam k) w
  | ResetFetchParams => update resetFetchParams w
  | Search q => search q w
  | HandleSearch => handleSearch_call w
  | HandleSearchSettled b out =>
      (* [handleSearch] has returned at its first line without [searchFn] *)
      if ICollectionConfig.searchFn (config (coll w))
      then (handleSearch_settle b out w).1 else w
  | ResetState => update resetState w
  | GoToNext => goToNext w
  | GoToPrev => goToPrev w
  end.

(** The steps of [l], first to last. *)
Definition run (l : list Step) (w : World) : World :=
  foldl (fun w s => step s w) w l.

(** A collection as [new Collection(config)] leaves it. *)
Definition start (cfg : ICollectionConfig.t) : World :=
  mkWorld (new cfg) [].

Definition isResetState (s : Step) : bool :=
  match s with
  | ResetState => true
  | _ => false
  end.

(** The transitions of the search track and those of the fetch track. *)
Definition isSearchStep (s : Step) : bool :=
  match s with
  | Search _ | HandleSearch | HandleSearchSettled _ _ => true
  | _ => false
  end.

Definition isFetchStep (s : Step) : bool :=
  match s with
  | Fetch _ | FetchSettled _ _ | Init _ => true
  | _ => false
  end.

End WithDeps.

End Collection.

(** ** The collaborators, as the spec describes them *)

Module SpecSorting.

(** Modelled from the spec: the class [Sorting], which is not among the
    sources.  It holds [sortBy] (optional) and [sortAscending]; [setParams]
    leaves a field whose argument is absent as it is; [params] has the
    defined fields only.  The spec gives no initial direction: [false]
    here.  The change notification the spec mentions is no part of the
    object's state; see [Deps] for how a call of [setParams] is taken. *)
Record t := mk {
  sortBy : option string;
  sortAscending : bool
}.

Definition new : t := mk None false.

Definition setParams (sb : option string) (sa : option bool) (s : t) : t :=
  mk (match sb with Some k => Some k | None => sortBy s end)
     (default (sortAscending s) sa).

Definition params (s : t) : gmap string JsVal :=
  let m : gmap string JsVal := {[ "sortAscending"%string := VBool (sortAscending s) ]} in
  match sortBy s with
  | Some k => <[ "sortBy"%string := VStr k ]> m
  | None => m
  end.

End SpecSorting.

Module SpecCursorPagination.

(** Modelled from the spec: the class [CursorPagination], which is not
    among the sources.  It holds the cursor to request, the [next] and
    [prev] tokens of the last response and a page size; [init] primes the
    cursor and the page size when they are given; [params] is
    [{cursor, pageSize}].  The page size starts as [Pagination]'s does. *)
Record t := mk {
  cursor : option string;
  next : option string;
  prev : option string;
  pageSize : Z
}.

Definition new (ps : option Z) : t :=
  mk None None None (if numTruthy ps then default 20 ps else 20).

Definition init (c : option string) (ps : option Z) (p : t) : t :=
  mk (if strTruthy c then c else cursor p) (next p) (prev p)
     (if numTruthy ps then default (pageSize p) ps else pageSize p).

Definition setNext (c : option string) (p : t) : t :=
  mk (cursor p) c (prev p) (pageSize p).

Definition setPrev (c : option string) (p : t) : t :=
  mk (cursor p) (next p) c (pageSize p).

Definition params (p : t) : gmap string JsVal :=
  let m : gmap string JsVal := {[ "pageSize"%string := VNum (pageSize p) ]} in
  match cursor p with
  | Some c => <[ "cursor"%string := VStr c ]> m
  | None => m
  end.

End SpecCursorPagination.

(** The collaborators of the spec, for the concrete collections below.
    Modelled from the spec: [parse] of the [query-string] package, which is
    not among the sources, is given no meaning by the spec beyond yielding
    a filter record; this instance is a stand-in that reads any query
    string as the record with the single key [q], and no concrete
    collection below passes a query string. *)
Definition SpecDeps : Deps :=
  {| Item := string;
     Err := string;
     Sorting := SpecSorting.t;
     Sorting_new := SpecSorting.new;
     Sorting_setParams := SpecSorting.setParams;
     Sorting_params := SpecSorting.params;
     CursorPagination := SpecCursorPagination.t;
     CursorPagination_new := SpecCursorPagination.new;
     CursorPagination_init := SpecCursorPagination.init;
     CursorPagination_setNext := SpecCursorPagination.setNext;
     CursorPagination_setPrev := SpecCursorPagination.setPrev;
     CursorPagination_params := SpecCursorPagination.params;
     qs_parse := fun q => {[ "q"%string := VStr q ]} |}.

(** ** The shallow merge of the spec *)

(** The value the last map of [fs] that has the key [k] gives it: in a
    shallow merge in call order a later argument overwrites an earlier one. *)
Fixpoint lastValue (k : string) (fs : list (gmap string JsVal)) : option JsVal :=
  match fs with
  | [] => None
  | f :: rest =>
      match lastValue k rest with
      | Some v => Some v
      | None => f !! k
      end
  end.

(** The shallow merge of [start] with [fs] in call order, key by key: a key
    that no argument has keeps the value [start] gives it. *)
Definition shallowMergeLookup (start : gmap string JsVal) (fs : list (gmap string JsVal))
    (k : string) : option JsVal :=
  match lastValue k fs with
  | Some v => Some v
  | None => start !! k
  end.

(** ** Concrete collections *)

(** A configuration with the offset strategy and nothing optional. *)
Definition offsetConfig : ICollectionConfig.t :=
  ICollectionConfig.mk UsePagination None None false false false.

(** The same with an error handler. *)
Definition handlerConfig : ICollectionConfig.t :=
  ICollectionConfig.mk UsePagination None None false true false.

(** What [fetchFn] rejects with in the examples. *)
Definition boom : @Err SpecDeps := "boom"%string.

(** A response with two items and a total. *)
Definition twoItems : @FetchResult SpecDeps :=
  @mkFetchResult SpecDeps (["a"; "b"]%string : list (@Item SpecDeps)) (Some 2) None None.

(** A collection whose first [fetch()] has completed with [twoItems]. *)
Definition fetchedOnce : @Collection.World SpecDeps :=
  (@Collection.fetch SpecDeps IFetchFnOptions.empty (Resolved twoItems)
     (@Collection.start SpecDeps offsetConfig)).1.

(** Operations after which the collection is looked at again; none is
    [resetState]. *)
Definition laterSteps : list (@Collection.Step SpecDeps) :=
  [ Collection.MergeFetchParams {[ "status"%string := VStr "open" ]};
    Collection.GoToNext;
    Collection.FetchSettled IFetchFnOptions.empty (Rejected boom);
    Collection.Search "x";
    Collection.ClearFetchParams;
    Collection.Init IFetchFnOptions.empty ].

(** Three arguments of [mergeFetchParams]: [status] is in the first and
    the second, [owner] in the second only, [tag] in none. *)
Definition mergeArgs : list (gmap string JsVal) :=
  [ {[ "status"%string := VStr "open" ]};
    {[ "status"%string := VStr "closed"; "owner"%string := VStr "ann" ]};
    {[ "limit"%string := VNum 5 ]} ].

(** A collection whose initial filters have [tag] and [status]. *)
Definition taggedConfig : ICollectionConfig.t :=
  ICollectionConfig.mk NoPagination None
    (Some {[ "tag"%string := VStr "t"; "status"%string := VStr "new" ]}) false false false.

(** Fetches that report totals, and the navigation between them. *)
Definition fetchSteps : list (@Collection.Step SpecDeps) :=
  [ Collection.Fetch IFetchFnOptions.empty;
    Collection.FetchSettled IFetchFnOptions.empty (Resolved twoItems);
    Collection.GoToNext;
    Collection.FetchSettled IFetchFnOptions.empty
      (Resolved (@mkFetchResult SpecDeps ([] : list (@Item SpecDeps)) (Some 2) None None)) ].

(** A pagination object on page 1 of size 10 that knows of 25 items, the
    same on page 3, and presses of the navigation buttons. *)
Definition firstOf25 : Pagination.t := Pagination.mk None 1 10 (Some 25).

Definition lastOf25 : Pagination.t := Pagination.mk None 3 10 (Some 25).

Definition presses : list Pagination.Nav :=
  [ Pagination.Prev; Pagination.Next; Pagination.Next; Pagination.Next;
    Pagination.Next; Pagination.Prev; Pagination.Next ].

(** An item of five minutes made at instant 0. *)
Definition fiveMinutes : CacheItem.t := CacheItem.mk ∅ 5 "x" 0.

(** Options that ask for page 3, and options that ask [fetch] to throw. *)
Definition pageThree : IFetchFnOptions.t :=
  IFetchFnOptions.mk false None None None (Some 3) None None None false.

Definition throwing : IFetchFnOptions.t :=
  IFetchFnOptions.mk false None None None None None None None true.

(** A configuration with a [searchFn] and no pagination. *)
Definition searchConfig : ICollectionConfig.t :=
  ICollectionConfig.mk NoPagination None None true false false.

(** A collection whose first [fetch()] has failed, and a later fetch that
    succeeds. *)
Definition failedOnce : @Collection.World SpecDeps :=
  (@Collection.fetch SpecDeps IFetchFnOptions.empty (Rejected boom)
     (@Collection.start SpecDeps offsetConfig)).1.


(** A collection whose filters are [tag] and [owner]. *)
Definition twoFilters : @Collection.t SpecDeps :=
  @Collection.mergeFetchParams SpecDeps
    {[ "tag"%string := VStr "t"; "owner"%string := VStr "ann" ]}
    (@Collection.new SpecDeps offsetConfig).

(** The resumption of a search that found one item. *)
Definition searchFound : @Collection.Step SpecDeps :=
  Collection.HandleSearchSettled false
    (@Resolved SpecDeps _ (["z"]%string : list (@Item SpecDeps))).

(** ** Proof automation *)

(** Unfolds a transition into setters and reduces the projections of
    what the setters build; maps are left as they are. *)
Ltac unfold_collection :=
  unfold Collection.step, Collection.run, Collection.goToNext, Collection.goToPrev,
    Collection.handleSearch_settle, Collection.handleSearch_call, Collection.search,
    Collection.init, Collection.init_call, Collection.fetch, Collection.fetch_settle,
    Collection.fetch_call, Collection.storeCursors, Collection.applyFilters,
    Collection.initPagination, Collection.resetState, Collection.resetFetchParams,
    Collection.clearFetchParam, Collection.clearFetchParams,
    Collection.mergeFetchParams, Collection.setFetchParams,
    Collection.paginationTotalCount, Pagination.goToNext, Pagination.goToPrev,
    Pagination.init in *.

Ltac project :=
  cbn [Collection.coll Collection.trace Collection.update Collection.emit
       fst snd fmap option_fmap option_map
       Collection.config Collection.initialized Collection.data Collection.totalCount
       Collection.fetching Collection.fetchErr Collection.searching
       Collection.searchErr Collection.searchQuery Collection.sorting
       Collection.filtersMap Collection.pagination Collection.cursorPagination
       Collection.set_initialized Collection.set_data Collection.set_totalCount
       Collection.set_fetching Collection.set_fetchErr Collection.set_searching
       Collection.set_searchErr Collection.set_searchQuery Collection.set_sorting
       Collection.set_filtersMap Collection.set_pagination
       Collection.set_cursorPagination
       Pagination.totalCount Pagination.page Pagination.pageSize Pagination.props
       Pagination.set_page Pagination.set_pageSize] in *.

Ltac crush_collection :=
  unfold_collection; project; try done;
  repeat (case_match; project; simplify_eq; try done).

(** ** Theorems *)

(** C1 fails when [totalCount] has been set to [0]: with the defaults
    [page = 1] and [pageSize = 20], [1 * 20 < 0] is false and yet
    [canGoToNext] is true. *)
Lemma canGoToNext_zero_total_counterexample :
  let p := Pagination.setTotalCount 0 (Pagination.new None) in
  Pagination.totalCount p = Some 0
  /\ (Pagination.page p * Pagination.pageSize p <? 0) = false
  /\ Pagination.canGoToNext p = true
  /\ ~ (Pagination.canGoToNext p = true
        <-> Pagination.page p * Pagination.pageSize p < 0).
Proof.
  cbn zeta. repeat split; try reflexivity.
  intros [Hlt _]. specialize (Hlt eq_refl). vm_compute in Hlt. discriminate Hlt.
Qed.

(** C1 (amended): [canGoToNext] is true whenever [totalCount] is unset or
    is [0]; for any other [totalCount] it is true exactly when
    [page * pageSize < totalCount].  With [page = 2], [pageSize = 10],
    [totalCount = 25] it is true, with [page = 3] it is false. *)
Theorem canGoToNext_spec :
  (forall pr pg ps, Pagination.canGoToNext (Pagination.mk pr pg ps None) = true)
  /\ (forall pr pg ps, Pagination.canGoToNext (Pagination.mk pr pg ps (Some 0)) = true)
  /\ (forall pr pg ps n, n <> 0 ->
        Pagination.canGoToNext (Pagination.mk pr pg ps (Some n)) = true <-> pg * ps < n)
  /\ (forall pr, Pagination.canGoToNext (Pagination.mk pr 2 10 (Some 25)) = true)
  /\ (forall pr, Pagination.canGoToNext (Pagination.mk pr 3 10 (Some 25)) = false).
Proof.
  repeat split; try reflexivity.
  - unfold Pagination.canGoToNext; simpl.
    destruct (Z.eqb_spec n 0) as [->|_]; [contradiction|]. simpl.
    apply Z.ltb_lt.
  - unfold Pagination.canGoToNext; simpl.
    destruct (Z.eqb_spec n 0) as [->|_]; [contradiction|]. simpl.
    apply Z.ltb_lt.
Qed.


(** ** CacheItem: properties *)

Lemma Qgtb_lt (x y : Q) : Qgtb x y = true <-> (y < x)%Q.
Proof.
  unfold Qgtb. rewrite negb_true_iff, <- not_true_iff_false, Qle_bool_iff.
  split; [apply Qnot_le_lt | apply Qlt_not_le].
Qed.

Lemma elapsedMinutes_gt (later earlier : Z) (m : Q) :
  (m < elapsedMinutes later earlier)%Q <-> (m * inject_Z 60000 < inject_Z (later - earlier))%Q.
Proof.
  unfold elapsedMinutes.
  assert (Hpos : (0 < inject_Z 60000)%Q) by reflexivity.
  split; intros Hlt.
  - apply (Qmult_lt_r _ _ (inject_Z 60000) Hpos) in Hlt.
    unfold Qdiv in Hlt. rewrite <- Qmult_assoc, (Qmult_comm (/ _)), Qmult_inv_r in Hlt.
    + by rewrite Qmult_1_r in Hlt.
    + discriminate.
  - by apply Qlt_shift_div_l.
Qed.

(** C8: [isStale(now)] is true exactly when the minutes that
    [timeDeltaInMinutes(now, cachedAt)] answers strictly exceed [ttl],
    whatever that helper computes; with the elapsed minutes of the spec,
    exactly when [now - cachedAt], in milliseconds, exceeds [ttl] minutes;
    and then, for [ttl = 5], an item is not stale 4 minutes after
    [cachedAt] and is stale 6 minutes after it. *)
Theorem isStale_iff_elapsed_exceeds_ttl :
  (forall (U : Util) (c : CacheItem.t) (now : Z),
      CacheItem.isStale c now = true
      <-> (CacheItem.ttl c < timeDeltaInMinutes now (CacheItem.cachedAt c))%Q)
  /\ (forall (c : CacheItem.t) (now : Z),
        @CacheItem.isStale SpecUtil c now = true
        <-> (CacheItem.ttl c * inject_Z 60000 < inject_Z (now - CacheItem.cachedAt c))%Q)
  /\ (forall (d : gmap string JsVal) (i : string) (at0 : Z),
        let c := CacheItem.mk d 5 i at0 in
        @CacheItem.isStale SpecUtil c (at0 + 4 * 60000) = false
        /\ @CacheItem.isStale SpecUtil c (at0 + 6 * 60000) = true).
Proof.
  split; [intros U c now; apply Qgtb_lt |].
  split.
  - intros c now. unfold CacheItem.isStale. rewrite Qgtb_lt. apply elapsedMinutes_gt.
  - intros d i at0. unfold CacheItem.isStale. cbn.
    unfold elapsedMinutes.
    replace (at0 + 4 * 60000 - at0) with 240000 by lia.
    replace (at0 + 6 * 60000 - at0) with 360000 by lia.
    split; reflexivity.
Qed.

(** C9 fails for a payload whose id is falsy: the payloads [{id: 0}] and
    [{id: ""}] have an id field, which coerced to a string is ["0"] and
    [""], and the item's id is the generated token. *)
Lemma CacheItem_id_falsy_counterexample :
  let d0 : gmap string JsVal := {[ "id"%string := VNum 0 ]} in
  let de : gmap string JsVal := {[ "id"%string := VStr "" ]} in
  let rt := mkRuntime 1000 0 in
  let idOf (d : gmap string JsVal) :=
    (CacheItem.id ∘ fst) <$> @CacheItem.new SpecUtil safeNumbersOnly d 5 rt in
  (d0 !! "id"%string = Some (VNum 0)
   /\ @toString safeNumbersOnly (VNum 0) = Some "0"%string
   /\ idOf d0 = Some "uuid-0"%string
   /\ idOf d0 <> Some "0"%string)
  /\ (de !! "id"%string = Some (VStr "")
      /\ @toString safeNumbersOnly (VStr "") = Some ""%string
      /\ idOf de = Some "uuid-0"%string
      /\ idOf de <> Some ""%string).
Proof. vm_compute. repeat split; try reflexivity; discriminate. Qed.

(** A payload without a truthy id gets the value of the next call of
    [uuid]. *)
Lemma new_without_truthy_id (U : Util) (J : JsNumber) (d : gmap string JsVal) (ttl0 : Q)
    (rt : Runtime) :
  truthy (CacheItem.data_id d) = false ->
  CacheItem.new d ttl0 rt
  = Some (CacheItem.mk d ttl0 (uuid_nth (uuid_calls rt)) (clock rt),
          mkRuntime (clock rt) (S (uuid_calls rt))).
Proof. intros Hf. unfold CacheItem.new, CacheItem.id_source. by rewrite Hf. Qed.

(** C9 (amended): the constructor always yields an item; its id is the
    payload's own id coerced to a string whenever that id is truthy (the
    field is present and is not [undefined], [null], [false], [0] or the
    empty string), and [uuid] is then not called; otherwise it is a
    freshly generated unique identifier: what the next call of [uuid]
    returns, that call being made, and, as long as [uuid] never returns
    the same value twice, different from the id of every item that
    another call of [uuid] gave its id. *)
Theorem CacheItem_id_resolution
    (U : Util) (J : JsNumber) (d : gmap string JsVal) (ttl0 : Q) (rt : Runtime) :
  exists item rt',
    CacheItem.new d ttl0 rt = Some (item, rt')
    /\ Some (CacheItem.id item)
       = (if truthy (CacheItem.data_id d) then toString (CacheItem.data_id d)
          else Some (uuid_nth (uuid_calls rt)))
    /\ uuid_calls rt'
       = (if truthy (CacheItem.data_id d) then uuid_calls rt else S (uuid_calls rt))
    /\ CacheItem.data_id d = default VUndef (d !! "id"%string)
    /\ CacheItem.data item = d /\ CacheItem.ttl item = ttl0
    /\ CacheItem.cachedAt item = clock rt
    /\ (truthy (CacheItem.data_id d) = false ->
        (forall m n, uuid_nth m = uuid_nth n -> m = n) ->
        forall (d2 : gmap string JsVal) (ttl2 : Q) (rt2 : Runtime)
               (item2 : CacheItem.t) (rt2' : Runtime),
          truthy (CacheItem.data_id d2) = false ->
          uuid_calls rt2 <> uuid_calls rt ->
          CacheItem.new d2 ttl2 rt2 = Some (item2, rt2') ->
          CacheItem.id item2 <> CacheItem.id item).
Proof.
  destruct (truthy (CacheItem.data_id d)) eqn:Ht.
  - unfold CacheItem.new, CacheItem.id_source. rewrite Ht.
    destruct (CacheItem.data_id d) as [| | [|] | n | s] eqn:Hd; try discriminate Ht;
      cbn [toString]; eexists _, _; (split; [reflexivity |]);
      cbn [CacheItem.id CacheItem.data CacheItem.ttl CacheItem.cachedAt];
      repeat split; try reflexivity; try (symmetry; exact Hd);
      intros Hf; discriminate Hf.
  - rewrite (new_without_truthy_id U J d ttl0 rt Ht).
    eexists _, _. split; [reflexivity |].
    cbn [CacheItem.id CacheItem.data CacheItem.ttl CacheItem.cachedAt uuid_calls].
    repeat split; try reflexivity.
    intros _ Hinj d2 ttl2 rt2 item2 rt2' Ht2 Hne Hnew.
    rewrite (new_without_truthy_id U J d2 ttl2 rt2 Ht2) in Hnew.
    injection Hnew as <- _. cbn [CacheItem.id].
    intros Heq. apply Hinj in Heq. done.
Qed.

(** ** Collection: properties *)

Section CollectionProperties.
Context `{Deps}.
Import Collection.

(** The synchronous part of [fetch] touches the sorting object, the
    pagination object, the filters and [fetching] only. *)
Lemma fetch_call_frame opts w :
  let c := coll w in
  let c' := coll (fetch_call opts w) in
  config c' = config c /\ initialized c' = initialized c /\ data c' = data c
  /\ totalCount c' = totalCount c /\ fetchErr c' = fetchErr c
  /\ searching c' = searching c /\ searchErr c' = searchErr c
  /\ searchQuery c' = searchQuery c /\ fetching c' = true.
Proof. destruct w as [c tr]. crush_collection. Qed.

(** [fetch] makes one call of [fetchFn], after at most one warning. *)
Lemma fetch_call_trace opts w :
  exists pre,
    trace (fetch_call opts w)
    = trace w ++ pre ++ [FetchFnCalled (queryParams (coll (fetch_call opts w)))]
    /\ (pre = [] \/ pre = [Warned]).
Proof.
  destruct w as [c tr]. unfold fetch_call. project.
  case_match; project.
  - exists [Warned]. split; [by rewrite <- app_assoc | by right].
  - exists []. split; [done | by left].
Qed.

Lemma fetchFnCalls_app (l1 l2 : list Effect) :
  fetchFnCalls (l1 ++ l2) = (fetchFnCalls l1 + fetchFnCalls l2)%nat.
Proof. unfold fetchFnCalls. by rewrite List.filter_app, length_app. Qed.

Lemma fetch_call_count opts w :
  fetchFnCalls (trace (fetch_call opts w)) = S (fetchFnCalls (trace w)).
Proof.
  destruct (fetch_call_trace opts w) as (pre & -> & [-> | ->]);
    rewrite !fetchFnCalls_app; unfold fetchFnCalls; simpl; lia.
Qed.

(** The resumption of [fetch] calls [fetchFn] no more. *)
Lemma fetch_settle_count opts out w :
  fetchFnCalls (trace (fetch_settle opts out w).1) = fetchFnCalls (trace w).
Proof.
  destruct w as [c tr], out as [res | err]; crush_collection.
  all: rewrite fetchFnCalls_app; unfold fetchFnCalls; simpl; lia.
Qed.

(** C2: when [fetchFn] fails and the options do not set
    [shouldThrowError], [fetch] records the error in [fetchErr], calls the
    error handler exactly when one is configured (and makes no other call),
    leaves the items as they were, and its promise resolves instead of
    rejecting, with the object [{data: [], totalCount: 0}]: no items, a
    total of 0 and no cursor field.  The first part is the resumption of
    [fetch] from any state [w1] the rejection finds; the second a [fetch]
    that nothing interleaves with. *)
Theorem fetch_failure_is_swallowed (opts : IFetchFnOptions.t) (err : Err) (w w1 : World) :
  IFetchFnOptions.shouldThrowError opts = false ->
  (let r := fetch_settle opts (Rejected err) w1 in
   fetchErr (coll r.1) = Some err
   /\ trace r.1 = trace w1 ++ (if ICollectionConfig.errorHandlerFn (config (coll w1))
                               then [ErrorHandlerCalled err] else [])
   /\ data (coll r.1) = data (coll w1)
   /\ r.2 = Resolved {| res_data := []; res_totalCount := Some 0;
                        res_nextPageCursor := None; res_prevPageCursor := None |})
  /\
  (let r := fetch opts (Rejected err) w in
   fetchErr (coll r.1) = Some err
   /\ trace r.1 = trace (fetch_call opts w)
                  ++ (if ICollectionConfig.errorHandlerFn (config (coll w))
                      then [ErrorHandlerCalled err] else [])
   /\ data (coll r.1) = data (coll w)
   /\ r.2 = Resolved {| res_data := []; res_totalCount := Some 0;
                        res_nextPageCursor := None; res_prevPageCursor := None |}).
Proof.
  intros Hno.
  assert (Hsettle : forall v : World,
    let r := fetch_settle opts (Rejected err) v in
    fetchErr (coll r.1) = Some err
    /\ trace r.1 = trace v ++ (if ICollectionConfig.errorHandlerFn (config (coll v))
                               then [ErrorHandlerCalled err] else [])
    /\ data (coll r.1) = data (coll v)
    /\ r.2 = Resolved {| res_data := []; res_totalCount := Some 0;
                         res_nextPageCursor := None; res_prevPageCursor := None |}).
  { intros [c tr]. unfold fetch_settle. rewrite Hno. project.
    destruct (ICollectionConfig.errorHandlerFn (config c)); project;
      rewrite ?app_nil_r; repeat split; reflexivity. }
  split; [apply Hsettle |].
  destruct (fetch_call_frame opts w) as (Hcfg & _ & Hdata & _).
  destruct (Hsettle (fetch_call opts w)) as (He & Htr & Hd & Hr).
  unfold fetch. cbn zeta. rewrite He, Htr, Hd, Hr, Hcfg, Hdata. done.
Qed.

(** The [finally] block of [fetch]. *)
Lemma fetch_settle_flags opts out w :
  fetching (coll (fetch_settle opts out w).1) = false
  /\ initialized (coll (fetch_settle opts out w).1) = true.
Proof. destruct w as [c tr], out as [res | err]; crush_collection. Qed.

(** Every transition but [resetState] keeps [initialized] once it is true. *)
Lemma step_keeps_initialized (s : Step) (w : World) :
  isResetState s = false ->
  initialized (coll w) = true ->
  initialized (coll (step s w)) = true.
Proof.
  intros Hs Hi. destruct w as [c tr].
  destruct s; try discriminate Hs; cbn in Hi; crush_collection.
Qed.

Lemma run_keeps_initialized (l : list Step) (w : World) :
  Forall (fun s => isResetState s = false) l ->
  initialized (coll w) = true ->
  initialized (coll (run l w)) = true.
Proof.
  intros Hl. revert w.
  induction Hl as [| s l Hs _ IH]; intros w Hi; [done |].
  cbn. apply IH. by apply step_keeps_initialized.
Qed.

(** C3: when [fetch] completes, whatever [fetchFn] answered and whether or
    not [fetch] re-throws, [fetching] is false and [initialized] is true;
    and no sequence of operations without [resetState] takes [initialized]
    from true back to false. *)
Theorem fetch_completion_and_sticky_initialized
    (opts : IFetchFnOptions.t) (out : Settled FetchResult) (w : World) (l : list Step) :
  (fetching (coll (fetch_settle opts out w).1) = false
   /\ initialized (coll (fetch_settle opts out w).1) = true)
  /\ (fetching (coll (fetch opts out w).1) = false
      /\ initialized (coll (fetch opts out w).1) = true)
  /\ (Forall (fun s => isResetState s = false) l ->
      initialized (coll w) = true ->
      initialized (coll (run l w)) = true).
Proof.
  split; [apply fetch_settle_flags |].
  split; [apply fetch_settle_flags |].
  apply run_keeps_initialized.
Qed.

(** C4 (amended): [queryParams] is the merge of the filters, the sorting
    parameters and the pagination parameters in which, for a key that
    several of them have, the pagination parameters win over the sorting
    parameters and these over the filters; its keys are the keys of the
    three; the pagination parameters are [{page, pageSize}] of the
    [Pagination] object if there is one, else the parameters of the
    [CursorPagination] object if there is one, else empty. *)
Theorem queryParams_is_biased_union (c : t) (k : string) :
  queryParams c = paginationParams c ∪ Sorting_params (sorting c) ∪ filters c
  /\ queryParams c !! k
     = match paginationParams c !! k with
       | Some v => Some v
       | None =>
           match Sorting_params (sorting c) !! k with
           | Some v => Some v
           | None => filters c !! k
           end
       end
  /\ dom (queryParams c)
     = dom (filters c) ∪ dom (Sorting_params (sorting c)) ∪ dom (paginationParams c)
  /\ paginationParams c
     = match pagination c, cursorPagination c with
       | Some p, _ =>
           {[ "page"%string := VNum (Pagination.page p);
              "pageSize"%string := VNum (Pagination.pageSize p) ]}
       | None, Some cp => CursorPagination_params cp
       | None, None => ∅
       end.
Proof.
  unfold queryParams, spread.
  split; [by rewrite (assoc_L (∪)) |].
  split.
  { rewrite !lookup_union.
    destruct (paginationParams c !! k), (Sorting_params (sorting c) !! k),
      (filters c !! k); done. }
  split.
  { rewrite !dom_union_L. apply set_eq. intros x. rewrite !elem_of_union. tauto. }
  unfold paginationParams, Pagination.params.
  destruct (pagination c), (cursorPagination c); done.
Qed.

(** C5: on an initialized collection [init] changes nothing and calls
    nothing, at its call and as a whole; hence when a first [init] runs on
    a collection not yet initialized and completes, it leaves the
    collection initialized, a second [init] changes nothing, and [fetchFn]
    has been invoked exactly once by the two. *)
Theorem init_fetches_at_most_once
    (o1 o2 : IFetchFnOptions.t) (out1 out2 : Settled FetchResult) (w : World) :
  (initialized (coll w) = true ->
   init_call o1 w = w /\ init o1 out1 w = (w, Resolved tt))
  /\ (initialized (coll w) = false ->
      let w1 := (init o1 out1 w).1 in
      let w2 := (init o2 out2 w1).1 in
      initialized (coll w1) = true
      /\ w2 = w1
      /\ fetchFnCalls (trace w2) = S (fetchFnCalls (trace w))).
Proof.
  split.
  - intros Hi. unfold init_call, init. by rewrite Hi.
  - intros Hi. cbn zeta.
    assert (Hw1 : (init o1 out1 w).1 = (fetch o1 out1 w).1).
    { unfold init. rewrite Hi. project. by destruct (fetch o1 out1 w). }
    rewrite Hw1.
    assert (Hi1 : initialized (coll (fetch o1 out1 w).1) = true).
    { apply fetch_settle_flags. }
    assert (Hw2 : (init o2 out2 (fetch o1 out1 w).1).1 = (fetch o1 out1 w).1).
    { generalize dependent (fetch o1 out1 w).1. intros v _ Hv.
      unfold init. by rewrite Hv. }
    rewrite Hw2. split; [done |]. split; [done |].
    unfold fetch. by rewrite fetch_settle_count, fetch_call_count.
Qed.

(** C6: [resetState] sets [initialized = false], [items = []],
    [totalCount = 0], [filtersMap = {}], [searchQuery = ""],
    [fetching = false], [searching = false], [fetchErr = undefined] and
    [searchErr = undefined], in every state; the pagination objects and the
    sorting object, hence their page, page size, sort key and direction,
    are what they were, and so is the configuration; no call is made. *)
Theorem resetState_restores_defaults (w : World) :
  let c := coll w in
  let c' := coll (step ResetState w) in
  (initialized c' = false /\ data c' = [] /\ totalCount c' = 0 /\ filtersMap c' = ∅
   /\ searchQuery c' = ""%string /\ fetching c' = false /\ searching c' = false
   /\ fetchErr c' = None /\ searchErr c' = None)
  /\ (pagination c' = pagination c /\ cursorPagination c' = cursorPagination c
      /\ sorting c' = sorting c /\ config c' = config c)
  /\ c' = resetState c
  /\ trace (step ResetState w) = trace w.
Proof. destruct w as [c tr]. cbn. done. Qed.

Lemma lastValue_absent (k : string) (fs : list (gmap string JsVal)) :
  (forall f, f ∈ fs -> f !! k = None) -> lastValue k fs = None.
Proof.
  induction fs as [| f rest IH]; intros Hall; [done |].
  cbn. rewrite IH by (intros g Hg; apply Hall; by right).
  apply Hall. by left.
Qed.

Lemma lastValue_last_defining (k : string) (pre post : list (gmap string JsVal))
    (f : gmap string JsVal) (v : JsVal) :
  f !! k = Some v ->
  (forall g, g ∈ post -> g !! k = None) ->
  lastValue k (pre ++ f :: post) = Some v.
Proof.
  intros Hf Hpost. induction pre as [| g pre IH]; cbn.
  - by rewrite (lastValue_absent k post Hpost).
  - by rewrite IH.
Qed.

Lemma run_mergeFetchParams (fs : list (gmap string JsVal)) (w : World) :
  run (MergeFetchParams <$> fs) w
  = mkWorld (foldl (fun c f => mergeFetchParams f c) (coll w) fs) (trace w).
Proof.
  revert w. induction fs as [| f rest IH]; intros [c tr]; [done |].
  cbn. unfold run in IH. by rewrite IH.
Qed.

Lemma mergeFetchParams_fold_lookup (fs : list (gmap string JsVal)) (c : t) (k : string) :
  filtersMap (foldl (fun c f => mergeFetchParams f c) c fs) !! k
  = shallowMergeLookup (filtersMap c) fs k.
Proof.
  revert c. induction fs as [| f rest IH]; intros c; [done |].
  cbn. rewrite IH. unfold shallowMergeLookup. cbn.
  destruct (lastValue k rest); [done |].
  rewrite lookup_union. by destruct (f !! k), (filtersMap c !! k).
Qed.

Lemma mergeFetchParams_fold_frame (fs : list (gmap string JsVal)) (c : t) :
  let c' := foldl (fun c f => mergeFetchParams f c) c fs in
  c' = set_filtersMap (filtersMap c') c.
Proof.
  revert c. induction fs as [| f rest IH]; intros c; cbn.
  - by destruct c.
  - cbn in IH. rewrite IH at 1. by destruct c.
Qed.

(** C7: after [mergeFetchParams(f1)], ..., [mergeFetchParams(fn)] the
    filter map is the shallow merge of the starting map with [f1], ...,
    [fn] in call order: a key that none of them has keeps the value it
    had, and a key that some of them have has the value the last of these
    gives it.  The calls change nothing else and call nothing. *)
Theorem mergeFetchParams_sequence_is_shallow_merge
    (fs : list (gmap string JsVal)) (w : World) (k : string) :
  let w' := run (MergeFetchParams <$> fs) w in
  filtersMap (coll w') !! k = shallowMergeLookup (filtersMap (coll w)) fs k
  /\ ((forall f, f ∈ fs -> f !! k = None) ->
      filtersMap (coll w') !! k = filtersMap (coll w) !! k)
  /\ (forall pre f post v,
        fs = pre ++ f :: post -> f !! k = Some v ->
        (forall g, g ∈ post -> g !! k = None) ->
        filtersMap (coll w') !! k = Some v)
  /\ coll w' = set_filtersMap (filtersMap (coll w')) (coll w)
  /\ trace w' = trace w.
Proof.
  cbn zeta. rewrite run_mergeFetchParams. cbn.
  rewrite mergeFetchParams_fold_lookup.
  split; [done |].
  split.
  { intros Hall. unfold shallowMergeLookup. by rewrite (lastValue_absent k fs Hall). }
  split.
  { intros pre f post v -> Hf Hpost. unfold shallowMergeLookup.
    by rewrite (lastValue_last_defining k pre post f v Hf Hpost). }
  split; [apply mergeFetchParams_fold_frame | done].
Qed.

(** No transition of the collection writes the [totalCount] of its
    [Pagination] object. *)
Lemma step_paginationTotalCount (s : Step) (w : World) :
  paginationTotalCount (coll (step s w)) = paginationTotalCount (coll w).
Proof.
  destruct w as [c tr]. unfold paginationTotalCount. project.
  destruct (pagination c) as [p |] eqn:Hp; destruct s; crush_collection.
  all: repeat (project;
               try match goal with E : pagination _ = _ |- _ => rewrite E end;
               try case_match; try done).
Qed.

Lemma run_paginationTotalCount (l : list Step) (w : World) :
  paginationTotalCount (coll (run l w)) = paginationTotalCount (coll w).
Proof.
  revert w. induction l as [| s l IH]; intros w; [done |].
  cbn. unfold run in IH. by rewrite IH, step_paginationTotalCount.
Qed.

Lemma start_paginationTotalCount (cfg : ICollectionConfig.t) :
  ICollectionConfig.pagination cfg = UsePagination ->
  paginationTotalCount (coll (start cfg)) = Some None.
Proof.
  intros Hp. unfold paginationTotalCount, start, new, Pagination.new. cbn. rewrite Hp. cbn.
  repeat case_match; done.
Qed.

(** C10: a successful [fetch] stores the response's [totalCount], when the
    response has one, in the collection's own [totalCount] and leaves the
    [totalCount] of the [Pagination] object as it was, as does every other
    transition of the collection; hence in a collection made with the
    offset strategy, after any sequence of fetches and other operations,
    the [Pagination] object's [totalCount] is still unset and its
    [canGoToNext] is true. *)
Theorem fetch_leaves_pagination_totalCount_unset
    (opts : IFetchFnOptions.t) (res : FetchResult) (w : World)
    (cfg : ICollectionConfig.t) (l : list Step) :
  (let w' := (fetch_settle opts (Resolved res) w).1 in
   totalCount (coll w') = default (totalCount (coll w)) (res_totalCount res)
   /\ paginationTotalCount (coll w') = paginationTotalCount (coll w))
  /\ paginationTotalCount (coll (run l w)) = paginationTotalCount (coll w)
  /\ (ICollectionConfig.pagination cfg = UsePagination ->
      exists p, pagination (coll (run l (start cfg))) = Some p
                /\ Pagination.totalCount p = None
                /\ Pagination.canGoToNext p = true).
Proof.
  split.
  { split; [| apply (step_paginationTotalCount (FetchSettled opts (Resolved res)))].
    destruct w as [c tr]. crush_collection. }
  split; [apply run_paginationTotalCount |].
  intros Hp.
  pose proof (run_paginationTotalCount l (start cfg)) as Hrun.
  rewrite (start_paginationTotalCount cfg Hp) in Hrun.
  unfold paginationTotalCount in Hrun.
  destruct (pagination (coll (run l (start cfg)))) as [p |] eqn:Hpag; [| done].
  cbn in Hrun. exists p. split; [done |]. split; [congruence |].
  unfold Pagination.canGoToNext.
  replace (Pagination.totalCount p) with (@None Z) by congruence. done.
Qed.

End CollectionProperties.

(** ** Concrete collections: properties *)

(** C4 fails for a filter whose key a pagination parameter has: after
    [mergeFetchParams({page: "5"})] on a new collection with the offset
    strategy, the filters hold [page: "5"] and [queryParams] holds
    [page: 1]. *)
Lemma queryParams_drops_filter_counterexample :
  let c := @Collection.mergeFetchParams SpecDeps {[ "page"%string := VStr "5" ]}
             (@Collection.new SpecDeps offsetConfig) in
  @Collection.filters SpecDeps c !! "page"%string = Some (VStr "5")
  /\ @Collection.queryParams SpecDeps c !! "page"%string = Some (VNum 1)
  /\ ~ (forall k v, @Collection.filters SpecDeps c !! k = Some v ->
                    @Collection.queryParams SpecDeps c !! k = Some v).
Proof.
  assert (Hf : @Collection.filters SpecDeps
                 (@Collection.mergeFetchParams SpecDeps {[ "page"%string := VStr "5" ]}
                    (@Collection.new SpecDeps offsetConfig)) !! "page"%string
               = Some (VStr "5")) by (vm_compute; reflexivity).
  assert (Hq : @Collection.queryParams SpecDeps
                 (@Collection.mergeFetchParams SpecDeps {[ "page"%string := VStr "5" ]}
                    (@Collection.new SpecDeps offsetConfig)) !! "page"%string
               = Some (VNum 1)) by (vm_compute; reflexivity).
  cbn zeta. split; [exact Hf |]. split; [exact Hq |].
  intros Hall. specialize (Hall _ _ Hf). rewrite Hq in Hall. discriminate Hall.
Qed.

(** C1's theorem at [page = 2], [pageSize = 10], [totalCount = 25]. *)
Lemma canGoToNext_spec_witness :
  25 <> 0
  /\ (Pagination.canGoToNext (Pagination.mk None 2 10 (Some 25)) = true <-> 2 * 10 < 25).
Proof.
  split; [discriminate |].
  apply (proj1 (proj2 (proj2 canGoToNext_spec))). discriminate.
Defined.

(** C2's theorem at a first [fetch()] of a new collection with an error
    handler, [fetchFn] rejecting with ["boom"]. *)
Lemma fetch_failure_is_swallowed_witness :
  IFetchFnOptions.shouldThrowError IFetchFnOptions.empty = false
  /\ (let w := @Collection.start SpecDeps handlerConfig in
      let r := @Collection.fetch SpecDeps IFetchFnOptions.empty (Rejected boom) w in
      Collection.fetchErr (Collection.coll r.1) = Some boom
      /\ Collection.trace r.1
         = Collection.trace (Collection.fetch_call IFetchFnOptions.empty w)
           ++ (if ICollectionConfig.errorHandlerFn (Collection.config (Collection.coll w))
               then [ErrorHandlerCalled boom] else [])
      /\ Collection.data (Collection.coll r.1) = Collection.data (Collection.coll w)
      /\ r.2 = Resolved {| res_data := []; res_totalCount := Some 0;
                           res_nextPageCursor := None; res_prevPageCursor := None |}).
Proof.
  split; [reflexivity |].
  exact (proj2 (@fetch_failure_is_swallowed SpecDeps IFetchFnOptions.empty boom
                  (@Collection.start SpecDeps handlerConfig)
                  (@Collection.start SpecDeps handlerConfig) eq_refl)).
Defined.

(** What that [fetch] leaves, computed. *)
Example fetch_failure_computed :
  let w := @Collection.start SpecDeps handlerConfig in
  let r := @Collection.fetch SpecDeps IFetchFnOptions.empty (Rejected boom) w in
  (exists params,
      Collection.trace r.1 = [FetchFnCalled params; ErrorHandlerCalled boom]
      /\ params = {[ "page"%string := VNum 1; "pageSize"%string := VNum 20;
                     "sortAscending"%string := VBool false ]})
  /\ Collection.fetchErr (Collection.coll r.1) = Some boom
  /\ Collection.data (Collection.coll r.1) = []
  /\ Collection.fetching (Collection.coll r.1) = false
  /\ Collection.initialized (Collection.coll r.1) = true
  /\ r.2 = Resolved {| res_data := []; res_totalCount := Some 0;
                       res_nextPageCursor := None; res_prevPageCursor := None |}.
Proof.
  cbv zeta. split; [| repeat split; reflexivity].
  eexists. split; [reflexivity |].
  refine (bool_decide_eq_true_1 _ _). vm_compute. reflexivity.
Qed.

(** C3's theorem at [fetchedOnce] and [laterSteps]. *)
Lemma fetch_completion_and_sticky_initialized_witness :
  Forall (fun s => @Collection.isResetState SpecDeps s = false) laterSteps
  /\ Collection.initialized (Collection.coll fetchedOnce) = true
  /\ Collection.initialized (Collection.coll (Collection.run laterSteps fetchedOnce)) = true.
Proof.
  assert (Hl : Forall (fun s => @Collection.isResetState SpecDeps s = false) laterSteps)
    by (repeat constructor).
  split; [exact Hl |].
  split; [reflexivity |].
  exact (proj2 (proj2 (@fetch_completion_and_sticky_initialized SpecDeps
                         IFetchFnOptions.empty (Resolved twoItems) fetchedOnce laterSteps))
           Hl eq_refl).
Defined.

(** A successful [fetch] with the response [{data: [a, b], totalCount: 2}],
    computed. *)
Example fetch_success_computed :
  Collection.data (Collection.coll fetchedOnce) = ["a"; "b"]%string
  /\ Collection.totalCount (Collection.coll fetchedOnce) = 2
  /\ Collection.fetching (Collection.coll fetchedOnce) = false
  /\ Collection.initialized (Collection.coll fetchedOnce) = true
  /\ Collection.paginationTotalCount (Collection.coll fetchedOnce) = Some None.
Proof. vm_compute. auto 10. Qed.

(** C5's theorem at a new collection, and at [fetchedOnce]. *)
Lemma init_fetches_at_most_once_witness :
  let w := @Collection.start SpecDeps offsetConfig in
  let w1 := (Collection.init IFetchFnOptions.empty (Resolved twoItems) w).1 in
  let w2 := (Collection.init IFetchFnOptions.empty (Resolved twoItems) w1).1 in
  Collection.initialized (Collection.coll w) = false
  /\ (Collection.initialized (Collection.coll w1) = true
      /\ w2 = w1
      /\ fetchFnCalls (Collection.trace w2) = S (fetchFnCalls (Collection.trace w)))
  /\ Collection.initialized (Collection.coll fetchedOnce) = true
  /\ Collection.init_call IFetchFnOptions.empty fetchedOnce = fetchedOnce.
Proof.
  split; [reflexivity |].
  split.
  - exact (proj2 (@init_fetches_at_most_once SpecDeps IFetchFnOptions.empty
                    IFetchFnOptions.empty (Resolved twoItems) (Resolved twoItems)
                    (@Collection.start SpecDeps offsetConfig)) eq_refl).
  - split; [reflexivity |].
    exact (proj1 (proj1 (@init_fetches_at_most_once SpecDeps IFetchFnOptions.empty
                           IFetchFnOptions.empty (Resolved twoItems) (Resolved twoItems)
                           fetchedOnce) eq_refl)).
Defined.

(** Two [init()] in a row on a new collection, computed: one call of
    [fetchFn]. *)
Example init_twice_computed :
  let w := @Collection.start SpecDeps offsetConfig in
  let w1 := (Collection.init IFetchFnOptions.empty (Resolved twoItems) w).1 in
  let w2 := (Collection.init IFetchFnOptions.empty (Resolved twoItems) w1).1 in
  fetchFnCalls (Collection.trace w2) = 1%nat.
Proof. vm_compute. reflexivity. Qed.

(** C7's theorem at [mergeArgs]: [tag] keeps its value, [status] has the
    value of the second argument. *)
Lemma mergeFetchParams_sequence_is_shallow_merge_witness :
  let w := @Collection.start SpecDeps taggedConfig in
  let w' := Collection.run (Collection.MergeFetchParams <$> mergeArgs) w in
  (forall f, f ∈ mergeArgs -> f !! "tag"%string = None)
  /\ Collection.filtersMap (Collection.coll w') !! "tag"%string = Some (VStr "t")
  /\ Collection.filtersMap (Collection.coll w') !! "status"%string = Some (VStr "closed").
Proof.
  assert (Htag : forall f, f ∈ mergeArgs -> f !! "tag"%string = None).
  { intros f Hf. unfold mergeArgs in Hf.
    repeat (apply elem_of_cons in Hf as [-> | Hf]; [reflexivity |]).
    by apply elem_of_nil in Hf. }
  split; [exact Htag |].
  split.
  - exact (proj1 (proj2 (@mergeFetchParams_sequence_is_shallow_merge SpecDeps mergeArgs
                           (@Collection.start SpecDeps taggedConfig) "tag"%string)) Htag).
  - refine (proj1 (proj2 (proj2 (@mergeFetchParams_sequence_is_shallow_merge SpecDeps
              mergeArgs (@Collection.start SpecDeps taggedConfig) "status"%string)))
              [ {[ "status"%string := VStr "open" ]} ]
              {[ "status"%string := VStr "closed"; "owner"%string := VStr "ann" ]}
              [ {[ "limit"%string := VNum 5 ]} ] (VStr "closed") eq_refl eq_refl _).
    intros g Hg. apply elem_of_cons in Hg as [-> | Hg]; [reflexivity |].
    by apply elem_of_nil in Hg.
Defined.

(** The filter map after the three merges, computed. *)
Example mergeFetchParams_sequence_computed :
  Collection.filtersMap
    (Collection.coll (Collection.run (Collection.MergeFetchParams <$> mergeArgs)
                        (@Collection.start SpecDeps taggedConfig)))
  = {[ "tag"%string := VStr "t"; "status"%string := VStr "closed";
       "owner"%string := VStr "ann"; "limit"%string := VNum 5 ]}.
Proof. refine (bool_decide_eq_true_1 _ _). vm_compute. reflexivity. Qed.

(** C10's theorem at [fetchSteps] on a new collection with the offset
    strategy. *)
Lemma fetch_leaves_pagination_totalCount_unset_witness :
  ICollectionConfig.pagination offsetConfig = UsePagination
  /\ exists p,
       Collection.pagination
         (Collection.coll (Collection.run fetchSteps (@Collection.start SpecDeps offsetConfig)))
       = Some p
       /\ Pagination.totalCount p = None
       /\ Pagination.canGoToNext p = true.
Proof.
  split; [reflexivity |].
  exact (proj2 (proj2 (@fetch_leaves_pagination_totalCount_unset SpecDeps
                         IFetchFnOptions.empty twoItems
                         (@Collection.start SpecDeps offsetConfig) offsetConfig fetchSteps))
           eq_refl).
Defined.

(** After [fetchSteps] the server has twice reported a total of 2, the
    collection is on page 2 of size 20, and [canGoToNext] is true. *)
Example pagination_after_fetches_computed :
  let c := Collection.coll (Collection.run fetchSteps (@Collection.start SpecDeps offsetConfig)) in
  Collection.totalCount c = 2
  /\ Collection.pagination c
     = Some (Pagination.mk (Some (Pagination.mkProps None true)) 2 20 None)
  /\ Pagination.canGoToNext <$> Collection.pagination c = Some true.
Proof. vm_compute. auto. Qed.

(** [CacheItem({id: "x"}, 5)], made when the clock reads 1000: its id, and
    its staleness 4 and 6 minutes later, computed. *)
Example CacheItem_computed :
  let made := @CacheItem.new SpecUtil safeNumbersOnly {[ "id"%string := VStr "x" ]} 5
                (mkRuntime 1000 0) in
  (CacheItem.id ∘ fst) <$> made = Some "x"%string
  /\ (fun m => @CacheItem.isStale SpecUtil m.1 (1000 + 4 * 60000)) <$> made = Some false
  /\ (fun m => @CacheItem.isStale SpecUtil m.1 (1000 + 6 * 60000)) <$> made = Some true
  /\ (CacheItem.id ∘ fst) <$> @CacheItem.new SpecUtil safeNumbersOnly
                                {[ "id"%string := VNum 42 ]} 5
                                (mkRuntime 1000 0) = Some "42"%string
  /\ (CacheItem.id ∘ fst) <$> @CacheItem.new SpecUtil safeNumbersOnly ∅ 5 (mkRuntime 1000 7)
     = Some "uuid-7"%string.
Proof. vm_compute. auto 10. Qed.

(** ** Pagination: further properties *)

Lemma nav_step_keeps_range (n0 : Pagination.Nav) (p : Pagination.t) :
  1 <= Pagination.page p ->
  0 <= Pagination.pageSize p ->
  (forall n, Pagination.totalCount p = Some n -> n <> 0 ->
             (Pagination.page p - 1) * Pagination.pageSize p < n) ->
  let p' := Pagination.navigate [n0] p in
  1 <= Pagination.page p'
  /\ Pagination.pageSize p' = Pagination.pageSize p
  /\ Pagination.totalCount p' = Pagination.totalCount p
  /\ Pagination.props p' = Pagination.props p
  /\ (forall n, Pagination.totalCount p' = Some n -> n <> 0 ->
                (Pagination.page p' - 1) * Pagination.pageSize p' < n).
Proof.
  intros Hpage Hsize Hin. destruct p as [pr pg ps tc]. cbn in *.
  destruct n0; cbn.
  - unfold Pagination.goToNext, Pagination.canGoToNext. cbn.
    destruct tc as [n |]; cbn.
    + destruct (Z.eqb_spec n 0) as [-> | Hn]; cbn.
      * repeat split; try lia. intros n [= <-] Hn. done.
      * destruct (Z.ltb_spec (pg * ps) n) as [Hlt | Hge]; cbn.
        -- repeat split; try lia. intros m [= <-] _.
           replace (pg + 1 - 1) with pg by lia. done.
        -- repeat split; try lia. done.
    + repeat split; try lia. intros n [=].
  - unfold Pagination.goToPrev. cbn.
    destruct (Z.ltb_spec 1 pg) as [Hgt | Hle]; cbn.
    + repeat split; try lia. intros n Hn Hn0. specialize (Hin n Hn Hn0). nia.
    + repeat split; try lia. done.
Qed.

(** X1: navigation with [goToNext] and [goToPrev] keeps the page in
    range.  From a page of at least 1, with a page size that is not
    negative, and with the current page starting before the end of a known
    total, every sequence of the two keeps [page >= 1], leaves the page
    size, the total and the props alone, and never lands on a page that
    starts at or past the total. *)
Theorem navigate_keeps_page_in_range (l : list Pagination.Nav) (p : Pagination.t) :
  1 <= Pagination.page p ->
  0 <= Pagination.pageSize p ->
  (forall n, Pagination.totalCount p = Some n -> n <> 0 ->
             (Pagination.page p - 1) * Pagination.pageSize p < n) ->
  let p' := Pagination.navigate l p in
  1 <= Pagination.page p'
  /\ Pagination.pageSize p' = Pagination.pageSize p
  /\ Pagination.totalCount p' = Pagination.totalCount p
  /\ Pagination.props p' = Pagination.props p
  /\ (forall n, Pagination.totalCount p' = Some n -> n <> 0 ->
                (Pagination.page p' - 1) * Pagination.pageSize p' < n).
Proof.
  revert p. induction l as [| n0 l IH]; intros p Hpage Hsize Hin; [done |].
  destruct (nav_step_keeps_range n0 p Hpage Hsize Hin) as (H1 & H2 & H3 & H4 & H5).
  change (Pagination.navigate (n0 :: l) p)
    with (Pagination.navigate l (Pagination.navigate [n0] p)).
  cbn zeta in *.
  destruct (IH (Pagination.navigate [n0] p)) as (I1 & I2 & I3 & I4 & I5);
    [done | lia | done |].
  repeat split; [done | congruence | congruence | congruence | done].
Qed.

(** X2: [goToPrev] undoes [goToNext].  On a page of at least 1 from which
    [goToNext] may advance, [goToNext] adds one to the page and a
    following [goToPrev] gives the object back, field by field. *)
Theorem goToNext_then_goToPrev_round_trip (p : Pagination.t) :
  1 <= Pagination.page p ->
  Pagination.canGoToNext p = true ->
  Pagination.page (Pagination.goToNext p).1 = Pagination.page p + 1
  /\ Pagination.goToPrev (Pagination.goToNext p).1 = p.
Proof.
  intros Hpage Hcan. unfold Pagination.goToNext. rewrite Hcan. cbn.
  split; [done |].
  unfold Pagination.goToPrev. cbn.
  destruct (Z.ltb_spec 1 (Pagination.page p + 1)) as [_ | Hle]; [| lia].
  destruct p as [pr pg ps tc]. unfold Pagination.set_page. cbn.
  f_equal. lia.
Qed.

(** X3: at the two ends navigation does nothing.  [goToPrev] on a page of
    1 or less returns the object as it is; [goToNext] when [canGoToNext] is
    false returns the object as it is and does not call [onChange]; and
    when [goToNext] does advance, [onChange], if given, is called with the
    page already advanced. *)
Theorem navigation_at_the_ends (p : Pagination.t) :
  (Pagination.page p <= 1 -> Pagination.goToPrev p = p)
  /\ (Pagination.canGoToNext p = false -> Pagination.goToNext p = (p, None))
  /\ (Pagination.canGoToNext p = true ->
      (Pagination.goToNext p).2
      = if Pagination.hasOnChange p
        then Some {[ "page"%string := VNum (Pagination.page p + 1);
                     "pageSize"%string := VNum (Pagination.pageSize p) ]}
        else None).
Proof.
  split; [| split].
  - intros Hle. unfold Pagination.goToPrev.
    destruct (Z.ltb_spec 1 (Pagination.page p)); [lia | done].
  - intros Hcan. unfold Pagination.goToNext. by rewrite Hcan.
  - intros Hcan. unfold Pagination.goToNext. rewrite Hcan.
    destruct p as [pr pg ps tc]. done.
Qed.

(** X4: [init] and the constructor take a zero or absent number as not
    given.  [init(page, pageSize)] sets each field whose argument is a
    number other than 0 and leaves the other, leaves the total alone, and
    is idempotent; [new Pagination({pageSize})] starts on page 1 with no
    total, with the given page size if it is not 0 and with 20 if it is. *)
Theorem init_ignores_zero_and_absent (pg ps : option Z) (p : Pagination.t) (cb : bool) :
  Pagination.page (Pagination.init pg ps p)
  = (if numTruthy pg then default 0 pg else Pagination.page p)
  /\ Pagination.pageSize (Pagination.init pg ps p)
     = (if numTruthy ps then default 0 ps else Pagination.pageSize p)
  /\ Pagination.totalCount (Pagination.init pg ps p) = Pagination.totalCount p
  /\ Pagination.init pg ps (Pagination.init pg ps p) = Pagination.init pg ps p
  /\ Pagination.new (Some (Pagination.mkProps ps cb))
     = Pagination.mk (Some (Pagination.mkProps ps cb)) 1
         (if numTruthy ps then default 0 ps else 20) None.
Proof.
  destruct p as [pr pg0 ps0 tc].
  destruct pg as [a |], ps as [b |]; cbn;
    try destruct (Z.eqb_spec a 0); try destruct (Z.eqb_spec b 0); cbn;
    unfold Pagination.init, Pagination.new; cbn;
    rewrite ?Z.eqb_refl;
    repeat match goal with
           | Hn : ?x <> 0 |- _ => rewrite (proj2 (Z.eqb_neq x 0) Hn)
           end; cbn; done.
Qed.

(** ** CacheItem: further properties *)

(** X5: [update] never touches the identity or the age of the item.
    Whatever lodash's [merge] returns, [update] leaves [id], [ttl] and
    [cachedAt] as they are, so [isStale] answers after it as before; the
    payload is the merge when [opts] is left out or has a true [merge],
    and the new data when [merge] is false or missing from [opts]. *)
Theorem update_keeps_identity_and_staleness
    (U : Util) (L : Lodash) (d : gmap string JsVal) (opts : option (option bool))
    (c : CacheItem.t) (now : Z) :
  CacheItem.id (CacheItem.update d opts c) = CacheItem.id c
  /\ CacheItem.ttl (CacheItem.update d opts c) = CacheItem.ttl c
  /\ CacheItem.cachedAt (CacheItem.update d opts c) = CacheItem.cachedAt c
  /\ CacheItem.isStale (CacheItem.update d opts c) now = CacheItem.isStale c now
  /\ CacheItem.data (CacheItem.update d opts c)
     = match opts with
       | None | Some (Some true) => lodash_merge (CacheItem.data c) d
       | Some None | Some (Some false) => d
       end.
Proof. by destruct opts as [[[|] |] |]. Qed.

(** X6: two items made one after the other from payloads without a truthy
    id get different ids, provided [uuid] never returns the same value
    twice: the first takes the value of the next call of [uuid] and the
    second the value of the call after it. *)
Theorem anonymous_items_get_distinct_ids
    (U : Util) (J : JsNumber) (d1 d2 : gmap string JsVal) (t1 t2 : Q) (rt : Runtime) :
  (forall m n, uuid_nth m = uuid_nth n -> m = n) ->
  truthy (CacheItem.data_id d1) = false ->
  truthy (CacheItem.data_id d2) = false ->
  exists i1 rt1 i2 rt2,
    CacheItem.new d1 t1 rt = Some (i1, rt1)
    /\ CacheItem.new d2 t2 rt1 = Some (i2, rt2)
    /\ CacheItem.id i1 = uuid_nth (uuid_calls rt)
    /\ CacheItem.id i2 = uuid_nth (S (uuid_calls rt))
    /\ CacheItem.id i1 <> CacheItem.id i2
    /\ uuid_calls rt2 = S (S (uuid_calls rt)).
Proof.
  intros Hinj H1 H2.
  eexists _, _, _, _.
  split; [by apply new_without_truthy_id |].
  split; [by apply new_without_truthy_id |].
  cbn. repeat split; try done.
  intros Heq. apply Hinj in Heq. lia.
Qed.

Lemma new_with_number_id (U : Util) (J : JsNumber) (n : Z) (d : gmap string JsVal)
    (ttl0 : Q) (rt : Runtime) :
  n <> 0 ->
  isSafeInteger n = true ->
  CacheItem.new (<[ "id"%string := VNum n ]> d) ttl0 rt
  = Some (CacheItem.mk (<[ "id"%string := VNum n ]> d) ttl0 (pretty n) (clock rt), rt).
Proof.
  intros Hn Hsafe. unfold CacheItem.new, CacheItem.id_source, CacheItem.data_id.
  rewrite lookup_insert_eq. cbn -[isSafeInteger pretty].
  rewrite (proj2 (Z.eqb_neq n 0) Hn). cbn -[isSafeInteger pretty].
  by rewrite Hsafe.
Qed.

Lemma new_with_string_id (U : Util) (J : JsNumber) (s : string) (d : gmap string JsVal)
    (ttl0 : Q) (rt : Runtime) :
  s <> ""%string ->
  CacheItem.new (<[ "id"%string := VStr s ]> d) ttl0 rt
  = Some (CacheItem.mk (<[ "id"%string := VStr s ]> d) ttl0 s (clock rt), rt).
Proof.
  intros Hs. unfold CacheItem.new, CacheItem.id_source, CacheItem.data_id.
  rewrite lookup_insert_eq. cbn.
  by rewrite (proj2 (String.eqb_neq s "") Hs).
Qed.

Lemma pretty_N_go_nonempty (x : N) (s : string) :
  s <> ""%string -> pretty_N_go x s <> ""%string.
Proof.
  revert s. induction (N.lt_wf_0 x) as [x _ IH]; intros s Hs.
  assert (x = 0 \/ 0 < x)%N as [-> | Hpos] by lia.
  - by rewrite pretty_N_go_0.
  - rewrite pretty_N_go_step by done. apply IH; [| done].
    apply N.div_lt; lia.
Qed.

Lemma pretty_Z_nonempty (n : Z) : pretty n <> ""%string.
Proof.
  assert (Hpos : forall q : positive, pretty q <> ""%string).
  { intros q. unfold pretty, pretty_positive, pretty, pretty_N.
    rewrite decide_False by done.
    rewrite pretty_N_go_step by lia. by apply pretty_N_go_nonempty. }
  destruct n as [| q | q]; [done | apply Hpos | done].
Qed.

(** X7: the id of an item is the string form of the payload's id and
    nothing else of the payload.  Payloads whose ids are safe integers
    other than 0 give the decimal numeral, so two such items have the same
    id exactly when the numbers are equal; and a payload whose id is that
    numeral as a string gives the same id as the payload whose id is the
    number. *)
Theorem numeric_ids_and_their_numerals
    (U : Util) (J : JsNumber) (n m : Z) (d1 d2 d3 : gmap string JsVal) (t1 t2 t3 : Q)
    (rt1 rt2 rt3 : Runtime) :
  n <> 0 -> m <> 0 ->
  isSafeInteger n = true -> isSafeInteger m = true ->
  let idOf (made : option (CacheItem.t * Runtime)) := (CacheItem.id ∘ fst) <$> made in
  let byN := idOf (CacheItem.new (<[ "id"%string := VNum n ]> d1) t1 rt1) in
  let byM := idOf (CacheItem.new (<[ "id"%string := VNum m ]> d2) t2 rt2) in
  let byNumeral := idOf (CacheItem.new (<[ "id"%string := VStr (pretty n) ]> d3) t3 rt3) in
  byN = Some (pretty n)
  /\ (byN = byM <-> n = m)
  /\ byNumeral = byN.
Proof.
  intros Hn Hm Hsn Hsm. cbn zeta.
  rewrite (new_with_number_id U J n d1 t1 rt1 Hn Hsn),
    (new_with_number_id U J m d2 t2 rt2 Hm Hsm).
  cbn. split; [done |]. split.
  - split; [| by intros ->]. intros [= Heq]. by apply (inj pretty) in Heq.
  - by rewrite (new_with_string_id U J (pretty n) d3 t3 rt3 (pretty_Z_nonempty n)).
Qed.

(** X8: staleness does not revert.  If [timeDeltaInMinutes] does not
    decrease when its first instant moves later, an item that is stale at
    one instant is stale at every later one. *)
Theorem isStale_is_monotone (U : Util) (c : CacheItem.t) (now later : Z) :
  (forall a b e, a <= b -> (timeDeltaInMinutes a e <= timeDeltaInMinutes b e)%Q) ->
  now <= later ->
  CacheItem.isStale c now = true ->
  CacheItem.isStale c later = true.
Proof.
  intros Hmono Hle. unfold CacheItem.isStale. rewrite !Qgtb_lt. intros Hlt.
  eapply Qlt_le_trans; [exact Hlt | by apply Hmono].
Qed.

(** ** Collection: further properties *)

Section CollectionFurther.
Context `{Deps}.
Import Collection.

(** No transition writes the configuration, makes a pagination object or
    drops one. *)
Lemma step_keeps_shape (s : Step) (w : World) :
  config (coll (step s w)) = config (coll w)
  /\ (fun _ => tt) <$> pagination (coll (step s w)) = (fun _ => tt) <$> pagination (coll w)
  /\ (fun _ => tt) <$> cursorPagination (coll (step s w))
     = (fun _ => tt) <$> cursorPagination (coll w).
Proof.
  destruct w as [c tr]. project.
  destruct (pagination c) as [p |] eqn:Hp, (cursorPagination c) as [cp |] eqn:Hcp;
    destruct s; crush_collection.
  all: repeat (project;
               try match goal with E : pagination _ = _ |- _ => rewrite E end;
               try match goal with E : cursorPagination _ = _ |- _ => rewrite E end;
               try case_match; try done).
Qed.

Lemma run_keeps_shape (l : list Step) (w : World) :
  config (coll (run l w)) = config (coll w)
  /\ (fun _ => tt) <$> pagination (coll (run l w)) = (fun _ => tt) <$> pagination (coll w)
  /\ (fun _ => tt) <$> cursorPagination (coll (run l w))
     = (fun _ => tt) <$> cursorPagination (coll w).
Proof.
  revert w. induction l as [| s l IH]; intros w; [done |].
  change (run (s :: l) w) with (run l (step s w)).
  destruct (IH (step s w)) as (I1 & I2 & I3), (step_keeps_shape s w) as (S1 & S2 & S3).
  repeat split; congruence.
Qed.

(** X9: the pagination strategy is fixed at construction.  After any
    sequence of operations on a new collection, the configuration is the
    one it was made with, there is a [Pagination] object exactly when the
    configuration chose [Pagination], a [CursorPagination] object exactly
    when it chose [CursorPagination], and never both. *)
Theorem strategy_is_fixed (cfg : ICollectionConfig.t) (l : list Step) :
  let c := coll (run l (start cfg)) in
  config c = cfg
  /\ (is_Some (pagination c) <-> ICollectionConfig.pagination cfg = UsePagination)
  /\ (is_Some (cursorPagination c)
      <-> ICollectionConfig.pagination cfg = UseCursorPagination)
  /\ ~ (is_Some (pagination c) /\ is_Some (cursorPagination c)).
Proof.
  cbn zeta. destruct (run_keeps_shape l (start cfg)) as (Hc & Hp & Hcp).
  change (coll (start cfg)) with (new cfg) in Hc, Hp, Hcp.
  set (c := coll (run l (start cfg))) in *. clearbody c.
  unfold new in Hc, Hp, Hcp. project.
  split; [done |].
  destruct (ICollectionConfig.pagination cfg), (pagination c) as [p |],
    (cursorPagination c) as [cp |]; cbn in Hp, Hcp; try discriminate;
    unfold is_Some;
    (split; [| split]);
    try (split; intros Hs; first [done | by eexists | by destruct Hs]);
    intros [[? ?] [? ?]]; done.
Qed.

(** X10: [resetFetchParams] brings the filters back to the initial ones.
    After any sequence of operations on a new collection,
    [resetFetchParams()] leaves the filter map equal to the
    [initialFilters] of the configuration, or empty if there were none:
    the filter map the constructor made. *)
Theorem resetFetchParams_restores_initial_filters (cfg : ICollectionConfig.t) (l : list Step) :
  filtersMap (coll (step ResetFetchParams (run l (start cfg))))
  = default ∅ (ICollectionConfig.initialFilters cfg)
  /\ filtersMap (coll (step ResetFetchParams (run l (start cfg)))) = filtersMap (new cfg).
Proof.
  destruct (run_keeps_shape l (start cfg)) as (Hc & _ & _).
  unfold start in Hc at 2. project.
  unfold step, update, resetFetchParams. project. rewrite Hc.
  unfold new. project. by destruct (ICollectionConfig.initialFilters cfg).
Qed.

(** X11: [resetState] is not a return to the constructed collection when
    initial filters were given.  On a new collection [resetState()]
    changes the filter map to the empty one and nothing else, so it gives
    the constructed collection back exactly when the initial filters are
    absent or empty; a following [resetFetchParams()] gives it back in
    every case. *)
Theorem resetState_drops_initial_filters (cfg : ICollectionConfig.t) :
  coll (step ResetState (start cfg)) = set_filtersMap ∅ (new cfg)
  /\ (coll (step ResetState (start cfg)) = new cfg
      <-> default ∅ (ICollectionConfig.initialFilters cfg) = ∅)
  /\ run [ResetState; ResetFetchParams] (start cfg) = start cfg.
Proof.
  split; [done |]. split.
  - unfold step, update, resetState, start, new. project.
    destruct (ICollectionConfig.initialFilters cfg) as [f |]; cbn [default].
    + split; [intros Heq; by injection Heq | intros <-; done].
    + done.
  - unfold run, foldl, step, update, resetState, resetFetchParams, start, new. project.
    by destruct (ICollectionConfig.initialFilters cfg).
Qed.

(** The state [fetch] reaches at its call of [fetchFn]. *)
Lemma fetch_call_coll (opts : IFetchFnOptions.t) (w : World) :
  coll (fetch_call opts w)
  = set_fetching true
      (applyFilters opts
         (initPagination opts
            (set_sorting (Sorting_setParams (IFetchFnOptions.sortBy opts)
                            (IFetchFnOptions.sortAscending opts) (sorting (coll w)))
               (coll w)))).
Proof. destruct w as [c tr]. unfold fetch_call. project. by case_match. Qed.

Lemma applyFilters_pagination (opts : IFetchFnOptions.t) (c : t) :
  pagination (applyFilters opts c) = pagination c.
Proof. unfold applyFilters, setFetchParams, mergeFetchParams. by repeat case_match. Qed.

Lemma init_page_size (pg ps : option Z) (p : Pagination.t) :
  Pagination.page (Pagination.init pg ps p)
  = (if numTruthy pg then default 0 pg else Pagination.page p)
  /\ Pagination.pageSize (Pagination.init pg ps p)
     = (if numTruthy ps then default 0 ps else Pagination.pageSize p).
Proof.
  unfold Pagination.init.
  destruct pg as [a |], ps as [b |]; cbn [numTruthy default];
    try destruct (negb (a =? 0)); try destruct (negb (b =? 0)); done.
Qed.

(** The pagination object and the two parameters it gives the request. *)
Lemma fetch_call_page_params (opts : IFetchFnOptions.t) (w : World) (p : Pagination.t) :
  pagination (coll w) = Some p ->
  let p' := Pagination.init (IFetchFnOptions.page opts) (IFetchFnOptions.pageSize opts) p in
  pagination (coll (fetch_call opts w)) = Some p'
  /\ queryParams (coll (fetch_call opts w)) !! "page"%string
     = Some (VNum (Pagination.page p'))
  /\ queryParams (coll (fetch_call opts w)) !! "pageSize"%string
     = Some (VNum (Pagination.pageSize p')).
Proof.
  intros Hp. cbn zeta.
  assert (Hpag : pagination (coll (fetch_call opts w))
                 = Some (Pagination.init (IFetchFnOptions.page opts)
                           (IFetchFnOptions.pageSize opts) p)).
  { rewrite fetch_call_coll. project. rewrite applyFilters_pagination.
    unfold initPagination. project. by rewrite Hp. }
  split; [done |].
  unfold queryParams, spread.
  split; apply lookup_union_Some_l; unfold paginationParams, Pagination.params;
    rewrite Hpag.
  - by rewrite lookup_insert_eq.
  - rewrite lookup_insert_ne by done. by rewrite lookup_singleton_eq.
Qed.

(** X12: [fetch] asks for the page its options name.  In a collection
    with a [Pagination] object, the parameters [fetchFn] is called with
    hold under [page] and [pageSize] the numbers of the options when these
    are given and not 0, and those of the pagination object otherwise,
    whatever the filters, the query string or the sorting hold under these
    keys. *)
Theorem fetch_requests_the_page_asked_for
    (opts : IFetchFnOptions.t) (w : World) (p : Pagination.t) :
  pagination (coll w) = Some p ->
  exists pre params,
    trace (fetch_call opts w) = trace w ++ pre ++ [FetchFnCalled params]
    /\ params !! "page"%string
       = Some (VNum (if numTruthy (IFetchFnOptions.page opts)
                     then default 0 (IFetchFnOptions.page opts)
                     else Pagination.page p))
    /\ params !! "pageSize"%string
       = Some (VNum (if numTruthy (IFetchFnOptions.pageSize opts)
                     then default 0 (IFetchFnOptions.pageSize opts)
                     else Pagination.pageSize p)).
Proof.
  intros Hp.
  destruct (fetch_call_trace opts w) as (pre & Htr & _).
  exists pre, (queryParams (coll (fetch_call opts w))). split; [done |].
  destruct (fetch_call_page_params opts w p Hp) as (_ & Hpage & Hsize).
  destruct (init_page_size (IFetchFnOptions.page opts) (IFetchFnOptions.pageSize opts) p)
    as (Hpg & Hps).
  by rewrite Hpage, Hsize, Hpg, Hps.
Qed.

(** X13: how [fetch] resolves its filters.  A query string that is not
    empty is parsed and wins over the [filters] option; an empty or absent
    one leaves the [filters] option to decide.  With filters resolved,
    [clearFilters] makes them the whole filter map and otherwise they
    overwrite their own keys and leave the others; with none resolved the
    filter map stays as it was. *)
Theorem fetch_resolves_filters (opts : IFetchFnOptions.t) (w : World) :
  let resolved := if strTruthy (IFetchFnOptions.query opts)
                  then qs_parse <$> IFetchFnOptions.query opts
                  else IFetchFnOptions.filters opts in
  filtersMap (coll (fetch_call opts w))
  = match resolved with
    | Some f => if IFetchFnOptions.clearFilters opts then f else f ∪ filtersMap (coll w)
    | None => filtersMap (coll w)
    end.
Proof.
  cbn zeta. rewrite fetch_call_coll. project.
  assert (Hf : forall c : t,
    filtersMap (initPagination opts c) = filtersMap c).
  { intros c. unfold initPagination. by repeat case_match. }
  unfold applyFilters, resolveFilters, setFetchParams, mergeFetchParams.
  destruct (IFetchFnOptions.query opts) as [q |]; cbn [strTruthy fmap option_fmap option_map].
  - destruct (negb (String.eqb q "")); [| destruct (IFetchFnOptions.filters opts)];
      try destruct (IFetchFnOptions.clearFilters opts); project; by rewrite ?Hf.
  - destruct (IFetchFnOptions.filters opts);
      try destruct (IFetchFnOptions.clearFilters opts); project; by rewrite ?Hf.
Qed.

(** X14: a failing [fetch] that was asked to throw.  With
    [shouldThrowError] set, the promise of [fetch] rejects with the very
    error [fetchFn] rejected with; the error is recorded in [fetchErr] and
    the error handler, if there is one, is called with it all the same,
    the items stay, and [fetching] is false and [initialized] true. *)
Theorem fetch_failure_is_rethrown (opts : IFetchFnOptions.t) (err : Err) (w : World) :
  IFetchFnOptions.shouldThrowError opts = true ->
  let r := fetch_settle opts (Rejected err) w in
  r.2 = Rejected err
  /\ fetchErr (coll r.1) = Some err
  /\ trace r.1 = trace w ++ (if ICollectionConfig.errorHandlerFn (config (coll w))
                             then [ErrorHandlerCalled err] else [])
  /\ data (coll r.1) = data (coll w)
  /\ fetching (coll r.1) = false
  /\ initialized (coll r.1) = true.
Proof.
  intros Hthrow. destruct w as [c tr]. unfold fetch_settle. rewrite Hthrow. project.
  destruct (ICollectionConfig.errorHandlerFn (config c)); project;
    rewrite ?app_nil_r; done.
Qed.

(** X15: what [fetch] does once [fetchFn] has resolved.  The part of
    [fetch] after the [await], from whatever state [w1] the response
    finds: the promise resolves with the response itself; the items are
    the response's, the total is the response's when it has one and the
    earlier total when it has none; an error of an earlier fetch stays in
    [fetchErr]; the filters, the sorting and the pagination object are not
    written and no call is made in this part; and without a
    [CursorPagination] object the cursors of the response go nowhere.  A
    whole [fetch] that nothing interleaves with: the same result, items,
    total and [fetchErr], and its calls are those of the part before the
    [await], of which exactly one is of [fetchFn]. *)
Theorem fetch_success_writes
    (opts : IFetchFnOptions.t) (res : FetchResult) (w w1 : World) :
  (let r := fetch_settle opts (Resolved res) w1 in
   r.2 = Resolved res
   /\ data (coll r.1) = res_data res
   /\ totalCount (coll r.1) = default (totalCount (coll w1)) (res_totalCount res)
   /\ fetchErr (coll r.1) = fetchErr (coll w1)
   /\ filtersMap (coll r.1) = filtersMap (coll w1)
   /\ sorting (coll r.1) = sorting (coll w1)
   /\ pagination (coll r.1) = pagination (coll w1)
   /\ trace r.1 = trace w1
   /\ (cursorPagination (coll w1) = None -> cursorPagination (coll r.1) = None))
  /\
  (let r := fetch opts (Resolved res) w in
   r.2 = Resolved res
   /\ data (coll r.1) = res_data res
   /\ totalCount (coll r.1) = default (totalCount (coll w)) (res_totalCount res)
   /\ fetchErr (coll r.1) = fetchErr (coll w)
   /\ trace r.1 = trace (fetch_call opts w)
   /\ fetchFnCalls (trace r.1) = S (fetchFnCalls (trace w))).
Proof.
  assert (Hsettle : forall v : World,
    let r := fetch_settle opts (Resolved res) v in
    r.2 = Resolved res
    /\ data (coll r.1) = res_data res
    /\ totalCount (coll r.1) = default (totalCount (coll v)) (res_totalCount res)
    /\ fetchErr (coll r.1) = fetchErr (coll v)
    /\ filtersMap (coll r.1) = filtersMap (coll v)
    /\ sorting (coll r.1) = sorting (coll v)
    /\ pagination (coll r.1) = pagination (coll v)
    /\ trace r.1 = trace v
    /\ (cursorPagination (coll v) = None -> cursorPagination (coll r.1) = None)).
  { intros [c tr]. unfold fetch_settle, storeCursors. project.
    destruct (res_totalCount res); project;
      destruct (cursorPagination c) eqn:Hcp; project; rewrite ?Hcp; done. }
  split; [apply Hsettle |].
  destruct (Hsettle (fetch_call opts w)) as (Hr & Hd & Ht & He & _ & _ & _ & Htr & _).
  destruct (fetch_call_frame opts w) as (_ & _ & _ & Htot & Herr & _).
  unfold fetch. cbn zeta in *.
  rewrite Hr, Hd, Ht, He, Htr, Htot, Herr, fetch_call_count. done.
Qed.



(** X17: the search track and the fetch track write different fields.
    [search], [handleSearch] and its resumption leave [initialized],
    [totalCount], [fetching], [fetchErr], the filters, the sorting and the
    pagination objects as they are and never call [fetchFn]; [fetch], its
    resumption and [init] leave [searching], [searchErr] and [searchQuery]
    as they are. *)
Theorem search_and_fetch_tracks_are_apart (s : Step) (w : World) :
  (isSearchStep s = true ->
   let c := coll w in
   let c' := coll (step s w) in
   initialized c' = initialized c /\ totalCount c' = totalCount c
   /\ fetching c' = fetching c /\ fetchErr c' = fetchErr c
   /\ filtersMap c' = filtersMap c /\ sorting c' = sorting c
   /\ pagination c' = pagination c /\ cursorPagination c' = cursorPagination c
   /\ fetchFnCalls (trace (step s w)) = fetchFnCalls (trace w))
  /\ (isFetchStep s = true ->
      let c := coll w in
      let c' := coll (step s w) in
      searching c' = searching c /\ searchErr c' = searchErr c
      /\ searchQuery c' = searchQuery c).
Proof.
  destruct w as [c tr]. split; intros Hs; destruct s; try discriminate Hs;
    cbn zeta; crush_collection;
    rewrite ?fetchFnCalls_app; unfold fetchFnCalls; cbn [List.filter isFetchFnCall length];
    repeat split; try done; lia.
Qed.

(** X18: the debounced search asks for the last query, and asks nothing
    without a [searchFn].  When the handler fires after [search(q1)] and
    [search(q2)], with a [searchFn] configured, [searchFn] is called once,
    with [q2], and [searching] is true; without a [searchFn] the handler
    and its resumption change nothing at all. *)
Theorem handleSearch_asks_for_the_last_query
    (q1 q2 : string) (b : bool) (out : Settled (list Item)) (w : World) :
  (ICollectionConfig.searchFn (config (coll w)) = true ->
   let w' := run [Search q1; Search q2; HandleSearch] w in
   trace w' = trace w ++ [SearchFnCalled q2]
   /\ searching (coll w') = true
   /\ searchQuery (coll w') = q2)
  /\ (ICollectionConfig.searchFn (config (coll w)) = false ->
      step HandleSearch w = w
      /\ step (HandleSearchSettled b out) w = w
      /\ trace (run [Search q1; HandleSearch] w) = trace w).
Proof.
  destruct w as [c tr]. project. split; intros Hfn.
  - unfold run, foldl, step, search, handleSearch_call, update, emit. project.
    by rewrite Hfn.
  - unfold run, foldl, step, search, handleSearch_call, update, emit. project.
    by rewrite Hfn.
Qed.

(** X19: how a search ends.  When [searchFn] resolves, its items replace
    the collection's and [searchErr] is left alone; when it rejects, the
    error is recorded in [searchErr], the error handler, if there is one,
    is called, the items stay, and the promise rejects only under
    [shouldThrowError]; in both cases [searching] is false afterwards. *)
Theorem handleSearch_settles (shouldThrow : bool) (out : Settled (list Item)) (w : World) :
  let r := handleSearch_settle shouldThrow out w in
  searching (coll r.1) = false
  /\ match out with
     | Resolved items =>
         data (coll r.1) = items /\ searchErr (coll r.1) = searchErr (coll w)
         /\ trace r.1 = trace w /\ r.2 = Resolved tt
     | Rejected err =>
         data (coll r.1) = data (coll w) /\ searchErr (coll r.1) = Some err
         /\ trace r.1 = trace w ++ (if ICollectionConfig.errorHandlerFn (config (coll w))
                                    then [ErrorHandlerCalled err] else [])
         /\ r.2 = (if shouldThrow then Rejected err else Resolved tt)
     end.
Proof.
  destruct w as [c tr], out as [items | err]; unfold handleSearch_settle; project.
  - done.
  - destruct (ICollectionConfig.errorHandlerFn (config c)), shouldThrow; project;
      rewrite ?app_nil_r; done.
Qed.

(** X20: overlapping fetches.  Two [fetch] calls made before either
    settles call [fetchFn] twice; the items are those of the response
    that settles last, whichever call it answers; and the first settling
    sets [fetching] to false while the other request is still out. *)
Theorem overlapping_fetches_last_settled_wins
    (a b : IFetchFnOptions.t) (ra rb : FetchResult) (outa : Settled FetchResult) (w : World) :
  fetchFnCalls (trace (run [Fetch a; Fetch b] w)) = S (S (fetchFnCalls (trace w)))
  /\ fetching (coll (run [Fetch a; Fetch b] w)) = true
  /\ data (coll (run [Fetch a; Fetch b; FetchSettled b (Resolved rb);
                      FetchSettled a (Resolved ra)] w)) = res_data ra
  /\ fetching (coll (run [Fetch a; Fetch b; FetchSettled a outa] w)) = false
  /\ fetchFnCalls (trace (run [Fetch a; Fetch b; FetchSettled a outa] w))
     = S (S (fetchFnCalls (trace w))).
Proof.
  unfold run, foldl, step.
  split; [by rewrite !fetch_call_count |].
  split; [apply fetch_call_frame |].
  split.
  { generalize (fetch_settle b (Resolved rb) (fetch_call b (fetch_call a w))).1.
    intros [c tr]. unfold fetch_settle, storeCursors. project.
    by repeat case_match. }
  split; [apply fetch_settle_flags |].
  by rewrite fetch_settle_count, !fetch_call_count.
Qed.





Lemma set_filtersMap_same (c : t) : set_filtersMap (filtersMap c) c = c.
Proof. by destruct c. Qed.

Lemma set_filtersMap_twice (m1 m2 : gmap string JsVal) (c : t) :
  set_filtersMap m1 (set_filtersMap m2 c) = set_filtersMap m1 c.
Proof. done. Qed.

(** X22: how the filter methods compose.  Merging the same filters twice
    is merging them once; merging [f] and then [g] is merging their merge,
    in which [g] wins; merging no filters changes nothing; on an empty
    filter map merging is setting; and [setFetchParams] forgets every
    earlier merge, set or clear. *)
Theorem filter_methods_compose (f g : gmap string JsVal) (k : string) (c : t) :
  mergeFetchParams f (mergeFetchParams f c) = mergeFetchParams f c
  /\ mergeFetchParams g (mergeFetchParams f c) = mergeFetchParams (g ∪ f) c
  /\ mergeFetchParams ∅ c = c
  /\ mergeFetchParams f (clearFetchParams c) = setFetchParams f c
  /\ setFetchParams f (mergeFetchParams g c) = setFetchParams f c
  /\ setFetchParams f (setFetchParams g c) = setFetchParams f c
  /\ setFetchParams f (clearFetchParam k (clearFetchParams c)) = setFetchParams f c.
Proof.
  unfold mergeFetchParams, setFetchParams, clearFetchParams, clearFetchParam.
  cbn [filtersMap set_filtersMap]. rewrite !set_filtersMap_twice.
  split; [by rewrite (assoc_L (∪)), (idemp_L (∪)) |].
  split; [by rewrite (assoc_L (∪)) |].
  split; [by rewrite (left_id_L ∅ (∪)), set_filtersMap_same |].
  split; [by rewrite (right_id_L ∅ (∪)) |].
  done.
Qed.

(** X23: [clearFetchParam] removes one key and only that key.  After
    [clearFetchParam(k)] the filter map has no [k] and holds under every
    other key what it held; if it had no [k] the collection is as it was;
    and clearing a key that [mergeFetchParams] has just added to a map
    without it gives the collection back. *)
Theorem clearFetchParam_removes_one_key (k k' : string) (v : JsVal) (c : t) :
  filtersMap (clearFetchParam k c) !! k = None
  /\ (k' <> k -> filtersMap (clearFetchParam k c) !! k' = filtersMap c !! k')
  /\ (filtersMap c !! k = None ->
      clearFetchParam k c = c
      /\ clearFetchParam k (mergeFetchParams {[ k := v ]} c) = c).
Proof.
  unfold clearFetchParam, mergeFetchParams. cbn [filtersMap set_filtersMap].
  split; [apply lookup_delete_eq |].
  split; [intros Hne; by apply lookup_delete_ne |].
  intros Hnone. rewrite set_filtersMap_twice.
  rewrite <- insert_union_singleton_l, delete_insert_eq, (delete_id _ _ Hnone).
  by rewrite set_filtersMap_same.
Qed.

End CollectionFurther.

(** ** Further properties at concrete inputs *)

(** X1's theorem at [firstOf25] and [presses]. *)
Lemma navigate_keeps_page_in_range_witness :
  (1 <= Pagination.page firstOf25
   /\ 0 <= Pagination.pageSize firstOf25
   /\ (forall n, Pagination.totalCount firstOf25 = Some n -> n <> 0 ->
                 (Pagination.page firstOf25 - 1) * Pagination.pageSize firstOf25 < n))
  /\ (let p' := Pagination.navigate presses firstOf25 in
      1 <= Pagination.page p'
      /\ Pagination.pageSize p' = Pagination.pageSize firstOf25
      /\ Pagination.totalCount p' = Pagination.totalCount firstOf25
      /\ Pagination.props p' = Pagination.props firstOf25
      /\ (forall n, Pagination.totalCount p' = Some n -> n <> 0 ->
                    (Pagination.page p' - 1) * Pagination.pageSize p' < n)).
Proof.
  assert (H1 : 1 <= Pagination.page firstOf25) by (cbn; lia).
  assert (H2 : 0 <= Pagination.pageSize firstOf25) by (cbn; lia).
  assert (H3 : forall n, Pagination.totalCount firstOf25 = Some n -> n <> 0 ->
                 (Pagination.page firstOf25 - 1) * Pagination.pageSize firstOf25 < n).
  { intros n [= <-] _. cbn. lia. }
  split; [done |].
  exact (navigate_keeps_page_in_range presses firstOf25 H1 H2 H3).
Defined.

(** The page after [presses]: the first [Prev] and the fourth [Next] do
    nothing. *)
Example navigate_computed :
  Pagination.navigate presses firstOf25 = lastOf25.
Proof. vm_compute. reflexivity. Qed.

(** X2's theorem at [firstOf25]. *)
Lemma goToNext_then_goToPrev_round_trip_witness :
  (1 <= Pagination.page firstOf25 /\ Pagination.canGoToNext firstOf25 = true)
  /\ Pagination.page (Pagination.goToNext firstOf25).1 = Pagination.page firstOf25 + 1
  /\ Pagination.goToPrev (Pagination.goToNext firstOf25).1 = firstOf25.
Proof.
  assert (H1 : 1 <= Pagination.page firstOf25) by (cbn; lia).
  split; [split; [exact H1 | reflexivity] |].
  exact (goToNext_then_goToPrev_round_trip firstOf25 H1 eq_refl).
Defined.

(** X3's theorem at [firstOf25] and [lastOf25]. *)
Lemma navigation_at_the_ends_witness :
  (Pagination.page firstOf25 <= 1 /\ Pagination.goToPrev firstOf25 = firstOf25)
  /\ (Pagination.canGoToNext lastOf25 = false
      /\ Pagination.goToNext lastOf25 = (lastOf25, None))
  /\ (Pagination.canGoToNext firstOf25 = true
      /\ (Pagination.goToNext firstOf25).2 = None).
Proof.
  assert (H1 : Pagination.page firstOf25 <= 1) by (cbn; lia).
  split; [split; [exact H1 | exact (proj1 (navigation_at_the_ends firstOf25) H1)] |].
  split.
  - split; [reflexivity |].
    exact (proj1 (proj2 (navigation_at_the_ends lastOf25)) eq_refl).
  - split; [reflexivity |].
    exact (proj2 (proj2 (navigation_at_the_ends firstOf25)) eq_refl).
Defined.

Lemma uuid_token_inj (m n : nat) : uuid_token m = uuid_token n -> m = n.
Proof.
  unfold uuid_token. intros Heq. cbn [String.append] in Heq. injection Heq as Heq.
  change (pretty m = pretty n) in Heq. by apply (inj pretty) in Heq.
Qed.

(** C9's theorem at an empty payload, followed by the payload [{id: 0}]:
    both get generated ids, and different ones. *)
Lemma CacheItem_id_resolution_witness :
  (truthy (CacheItem.data_id ∅) = false
   /\ truthy (CacheItem.data_id {[ "id"%string := VNum 0 ]}) = false
   /\ (forall m n, @uuid_nth SpecUtil m = @uuid_nth SpecUtil n -> m = n))
  /\ exists item rt',
       @CacheItem.new SpecUtil safeNumbersOnly ∅ 5 (mkRuntime 1000 0) = Some (item, rt')
       /\ Some (CacheItem.id item) = Some (@uuid_nth SpecUtil 0)
       /\ uuid_calls rt' = 1%nat
       /\ forall item2 rt2',
            @CacheItem.new SpecUtil safeNumbersOnly {[ "id"%string := VNum 0 ]} 5 rt'
            = Some (item2, rt2') ->
            CacheItem.id item2 <> CacheItem.id item.
Proof.
  split; [split; [reflexivity | split; [reflexivity | exact uuid_token_inj]] |].
  destruct (CacheItem_id_resolution SpecUtil safeNumbersOnly ∅ 5 (mkRuntime 1000 0))
    as (item & rt' & Hnew & Hid & Hcalls & _ & _ & _ & _ & Huniq).
  exists item, rt'. split; [exact Hnew |]. split; [exact Hid |]. split; [exact Hcalls |].
  intros item2 rt2' Hnew2.
  assert (Hf2 : truthy (CacheItem.data_id
                          ({[ "id"%string := VNum 0 ]} : gmap string JsVal)) = false)
    by reflexivity.
  refine (Huniq eq_refl uuid_token_inj _ _ rt' item2 rt2' Hf2 _ Hnew2).
  rewrite Hcalls. discriminate.
Defined.

(** X6's theorem at an empty payload and the payload [{id: 0}]. *)
Lemma anonymous_items_get_distinct_ids_witness :
  ((forall m n, @uuid_nth SpecUtil m = @uuid_nth SpecUtil n -> m = n)
   /\ truthy (CacheItem.data_id ∅) = false
   /\ truthy (CacheItem.data_id {[ "id"%string := VNum 0 ]}) = false)
  /\ exists i1 rt1 i2 rt2,
       @CacheItem.new SpecUtil safeNumbersOnly ∅ 5 (mkRuntime 1000 0) = Some (i1, rt1)
       /\ @CacheItem.new SpecUtil safeNumbersOnly {[ "id"%string := VNum 0 ]} 5 rt1
          = Some (i2, rt2)
       /\ CacheItem.id i1 = @uuid_nth SpecUtil (uuid_calls (mkRuntime 1000 0))
       /\ CacheItem.id i2 = @uuid_nth SpecUtil (S (uuid_calls (mkRuntime 1000 0)))
       /\ CacheItem.id i1 <> CacheItem.id i2
       /\ uuid_calls rt2 = S (S (uuid_calls (mkRuntime 1000 0))).
Proof.
  split; [split; [exact uuid_token_inj | split; reflexivity] |].
  exact (anonymous_items_get_distinct_ids SpecUtil safeNumbersOnly ∅
           {[ "id"%string := VNum 0 ]} 5 5
           (mkRuntime 1000 0) uuid_token_inj eq_refl eq_refl).
Defined.

(** X7's theorem at the ids 7 and 42. *)
Lemma numeric_ids_and_their_numerals_witness :
  (7 <> 0 /\ 42 <> 0 /\ isSafeInteger 7 = true /\ isSafeInteger 42 = true)
  /\ (let idOf (made : option (CacheItem.t * Runtime)) := (CacheItem.id ∘ fst) <$> made in
      let byN := idOf (@CacheItem.new SpecUtil safeNumbersOnly
                         (<[ "id"%string := VNum 7 ]> ∅) 5 (mkRuntime 0 0)) in
      let byM := idOf (@CacheItem.new SpecUtil safeNumbersOnly
                         (<[ "id"%string := VNum 42 ]> ∅) 5 (mkRuntime 0 0)) in
      let byNumeral := idOf (@CacheItem.new SpecUtil safeNumbersOnly
                               (<[ "id"%string := VStr (pretty 7) ]> ∅) 5 (mkRuntime 0 0)) in
      byN = Some (pretty 7) /\ (byN = byM <-> 7 = 42) /\ byNumeral = byN).
Proof.
  assert (H7 : 7 <> 0) by discriminate.
  assert (H42 : 42 <> 0) by discriminate.
  split; [repeat split; done |].
  exact (numeric_ids_and_their_numerals SpecUtil safeNumbersOnly 7 42 ∅ ∅ ∅ 5 5 5
           (mkRuntime 0 0) (mkRuntime 0 0) (mkRuntime 0 0) H7 H42 eq_refl eq_refl).
Defined.

Lemma elapsedMinutes_mono (a b e : Z) :
  a <= b -> (elapsedMinutes a e <= elapsedMinutes b e)%Q.
Proof.
  intros Hle. unfold elapsedMinutes, Qdiv.
  apply Qmult_le_compat_r; [| discriminate].
  rewrite <- Zle_Qle. lia.
Qed.

(** X8's theorem at [fiveMinutes], six and seven minutes after it was
    made. *)
Lemma isStale_is_monotone_witness :
  ((forall a b e, a <= b ->
      (@timeDeltaInMinutes SpecUtil a e <= @timeDeltaInMinutes SpecUtil b e)%Q)
   /\ 6 * 60000 <= 7 * 60000
   /\ @CacheItem.isStale SpecUtil fiveMinutes (6 * 60000) = true)
  /\ @CacheItem.isStale SpecUtil fiveMinutes (7 * 60000) = true.
Proof.
  assert (Hle : 6 * 60000 <= 7 * 60000) by lia.
  split; [split; [exact elapsedMinutes_mono | split; [exact Hle | reflexivity]] |].
  exact (isStale_is_monotone SpecUtil fiveMinutes (6 * 60000) (7 * 60000)
           elapsedMinutes_mono Hle eq_refl).
Defined.

(** X12's theorem at [fetch({page: 3})] on a new collection with the
    offset strategy. *)
Lemma fetch_requests_the_page_asked_for_witness :
  let w := @Collection.start SpecDeps offsetConfig in
  let p := Pagination.new (Some (Pagination.mkProps None true)) in
  Collection.pagination (Collection.coll w) = Some p
  /\ exists pre params,
       Collection.trace (Collection.fetch_call pageThree w)
       = Collection.trace w ++ pre ++ [FetchFnCalled params]
       /\ params !! "page"%string
          = Some (VNum (if numTruthy (IFetchFnOptions.page pageThree)
                        then default 0 (IFetchFnOptions.page pageThree)
                        else Pagination.page p))
       /\ params !! "pageSize"%string
          = Some (VNum (if numTruthy (IFetchFnOptions.pageSize pageThree)
                        then default 0 (IFetchFnOptions.pageSize pageThree)
                        else Pagination.pageSize p)).
Proof.
  split; [reflexivity |].
  exact (@fetch_requests_the_page_asked_for SpecDeps pageThree
           (@Collection.start SpecDeps offsetConfig)
           (Pagination.new (Some (Pagination.mkProps None true))) eq_refl).
Defined.

(** What [fetchFn] is asked by that [fetch], computed: page 3 of size 20. *)
Example fetch_page_three_computed :
  let w := @Collection.fetch_call SpecDeps pageThree (@Collection.start SpecDeps offsetConfig) in
  exists params,
    Collection.trace w = [FetchFnCalled params]
    /\ params !! "page"%string = Some (VNum 3)
    /\ params !! "pageSize"%string = Some (VNum 20).
Proof.
  cbv zeta. eexists. split; [reflexivity |]. split; vm_compute; reflexivity.
Qed.

(** X14's theorem at a first [fetch] that throws, with an error handler. *)
Lemma fetch_failure_is_rethrown_witness :
  IFetchFnOptions.shouldThrowError throwing = true
  /\ (let w := @Collection.start SpecDeps handlerConfig in
      let r := Collection.fetch_settle throwing (Rejected boom) w in
      r.2 = Rejected boom
      /\ Collection.fetchErr (Collection.coll r.1) = Some boom
      /\ Collection.trace r.1
         = Collection.trace w
           ++ (if ICollectionConfig.errorHandlerFn (Collection.config (Collection.coll w))
               then [ErrorHandlerCalled boom] else [])
      /\ Collection.data (Collection.coll r.1) = Collection.data (Collection.coll w)
      /\ Collection.fetching (Collection.coll r.1) = false
      /\ Collection.initialized (Collection.coll r.1) = true).
Proof.
  split; [reflexivity |].
  exact (@fetch_failure_is_rethrown SpecDeps throwing boom
           (@Collection.start SpecDeps handlerConfig) eq_refl).
Defined.

(** X15's theorem at [failedOnce]: the success keeps the earlier error. *)
Lemma fetch_success_writes_witness :
  let r := Collection.fetch_settle IFetchFnOptions.empty (Resolved twoItems) failedOnce in
  Collection.cursorPagination (Collection.coll failedOnce) = None
  /\ Collection.cursorPagination (Collection.coll r.1) = None
  /\ Collection.fetchErr (Collection.coll r.1) = Some boom
  /\ Collection.data (Collection.coll r.1) = res_data twoItems.
Proof.
  split; [reflexivity |].
  pose proof (proj1 (@fetch_success_writes SpecDeps IFetchFnOptions.empty twoItems
                       failedOnce failedOnce))
    as (_ & Hdata & _ & Herr & _ & _ & _ & _ & Hcur).
  split; [exact (Hcur eq_refl) |].
  split; [exact Herr | exact Hdata].
Defined.


(** X17's theorem at [searchFound] and at a [fetch()], on [failedOnce]. *)
Lemma search_and_fetch_tracks_are_apart_witness :
  (Collection.isSearchStep searchFound = true
   /\ Collection.fetchErr (Collection.coll (Collection.step searchFound failedOnce))
      = Collection.fetchErr (Collection.coll failedOnce))
  /\ (@Collection.isFetchStep SpecDeps (Collection.Fetch IFetchFnOptions.empty) = true
      /\ Collection.searchQuery
           (Collection.coll (Collection.step (Collection.Fetch IFetchFnOptions.empty) failedOnce))
         = Collection.searchQuery (Collection.coll failedOnce)).
Proof.
  split.
  - split; [reflexivity |].
    exact (proj1 (proj2 (proj2 (proj2
             (proj1 (@search_and_fetch_tracks_are_apart SpecDeps searchFound failedOnce)
                eq_refl))))).
  - split; [reflexivity |].
    exact (proj2 (proj2
             (proj2 (@search_and_fetch_tracks_are_apart SpecDeps
                       (Collection.Fetch IFetchFnOptions.empty) failedOnce) eq_refl))).
Defined.

(** X18's theorem on a new collection with a [searchFn] and on one
    without. *)
Lemma handleSearch_asks_for_the_last_query_witness :
  (ICollectionConfig.searchFn
     (Collection.config (Collection.coll (@Collection.start SpecDeps searchConfig))) = true
   /\ Collection.trace
        (Collection.run [Collection.Search "a"; Collection.Search "ab"; Collection.HandleSearch]
           (@Collection.start SpecDeps searchConfig))
      = Collection.trace (@Collection.start SpecDeps searchConfig) ++ [SearchFnCalled "ab"])
  /\ (ICollectionConfig.searchFn
        (Collection.config (Collection.coll (@Collection.start SpecDeps offsetConfig))) = false
      /\ Collection.step Collection.HandleSearch (@Collection.start SpecDeps offsetConfig)
         = @Collection.start SpecDeps offsetConfig).
Proof.
  split.
  - split; [reflexivity |].
    exact (proj1 (proj1 (@handleSearch_asks_for_the_last_query SpecDeps "a" "ab" false
                           (Resolved []) (@Collection.start SpecDeps searchConfig)) eq_refl)).
  - split; [reflexivity |].
    exact (proj1 (proj2 (@handleSearch_asks_for_the_last_query SpecDeps "a" "ab" false
                           (Resolved []) (@Collection.start SpecDeps offsetConfig)) eq_refl)).
Defined.


(** X23's theorem at the key [status] on [twoFilters]. *)
Lemma clearFetchParam_removes_one_key_witness :
  ("tag"%string <> "status"%string
   /\ Collection.filtersMap twoFilters !! "status"%string = None)
  /\ Collection.filtersMap (Collection.clearFetchParam "status" twoFilters) !! "tag"%string
     = Collection.filtersMap twoFilters !! "tag"%string
  /\ Collection.clearFetchParam "status" twoFilters = twoFilters
  /\ Collection.clearFetchParam "status"
       (Collection.mergeFetchParams {[ "status"%string := VStr "open" ]} twoFilters)
     = twoFilters.
Proof.
  assert (Hne : "tag"%string <> "status"%string) by discriminate.
  assert (Hnone : Collection.filtersMap twoFilters !! "status"%string = None)
    by reflexivity.
  split; [done |].
  split.
  - exact (proj1 (proj2 (@clearFetchParam_removes_one_key SpecDeps "status" "tag"
                           (VStr "open") twoFilters)) Hne).
  - exact (proj2 (proj2 (@clearFetchParam_removes_one_key SpecDeps "status" "tag"
                           (VStr "open") twoFilters)) Hnone).
Defined.
